(** * Verification of the service monitor of [bot.py]

    The development embeds the loop body of [monitor_services] (bot.py,
    lines 82-228): the per-service comparison of scores and checker status
    against the stored state, the bookkeeping of [last_service_states],
    [prev_deltas] and [last_tick], and the text of the Discord alerts.

    Modelling choices.
    - Scores are Python floats, that is IEEE 754 binary64 numbers: Rocq's
      primitive [float] with the same arithmetic and comparisons.  The
      numbers of the fetched document are taken to be floats, and the
      integer [0] of lines 204 and 216 is the float zero, which prints the
      same.
    - Python dicts that are only read and written by key
      ([last_service_states], [prev_deltas]) are [gmap string _]; dicts that
      are iterated (the fetched JSON objects) are association lists in
      insertion order, the order Python iterates them in.
    - Exceptions are explicit: a computation returns [Ok v] or [Raise e].
      Float division raises [ZeroDivisionError] on a zero divisor, indexing a
      dict with an absent key raises [KeyError].
    - Log output ([log_info], [log_warning], ...) and the delivery of a
      message by [send_discord_message] are not modelled; the model returns
      the texts handed to [send_discord_message], in order. *)

From Stdlib Require Import ZArith String Ascii Floats DecimalString.
From stdpp Require Import base option list gmap strings.

Local Open Scope float_scope.

(** ** Python exceptions *)

Inductive PyExn : Type :=
  | ZeroDivisionError
  | KeyError (key : string).

Inductive result (A : Type) : Type :=
  | Ok (value : A)
  | Raise (exn : PyExn).

Arguments Ok {A} value.
Arguments Raise {A} exn.

#[global] Instance result_ret : MRet result := fun A value => Ok value.

#[global] Instance result_bind : MBind result := fun A B f m =>
  match m with
  | Ok value => f value
  | Raise exn => Raise exn
  end.

(** A Python [for] loop whose body updates the loop state [S]; an exception
    raised by the body leaves the loop. *)
Fixpoint for_loop {A S : Type} (body : S -> A -> result S) (items : list A) (s : S)
  : result S :=
  match items with
  | [] => Ok s
  | item :: rest => s' ← body s item; for_loop body rest s'
  end.

(** ** Python float operations *)

(** [x != 0] on floats. *)
Definition py_ne0 (x : float) : bool := negb (x =? 0).

(** [x / y] on floats: Python raises instead of returning an infinity. *)
Definition py_truediv (x y : float) : result float :=
  if y =? 0 then Raise ZeroDivisionError else Ok (x / y).

(** ** Python string formatting *)

Definition nl : string := String "010"%char EmptyString.

Definition decimal (n : Z) : string := NilZero.string_of_uint (N.to_uint (Z.to_N n)).

(** [n / d] rounded to the nearest integer, ties to the even one
    ([0 <= n], [0 < d]). *)
Definition round_half_even (n d : Z) : Z :=
  let q := (n / d)%Z in
  let r := (n mod d)%Z in
  if (2 * r <? d)%Z then q
  else if (d <? 2 * r)%Z then (q + 1)%Z
  else if Z.even q then q else (q + 1)%Z.

(** The value [m * 2 ^ e] in hundredths, correctly rounded. *)
Definition hundredths (m : positive) (e : Z) : Z :=
  if (0 <=? e)%Z then (Z.pos m * 2 ^ e * 100)%Z
  else round_half_even (Z.pos m * 100) (2 ^ (- e)).

Definition two_digits (n : Z) : string :=
  if (n <? 10)%Z then "0" +:+ decimal n else decimal n.

Definition fixed2 (h : Z) : string :=
  decimal (h / 100) +:+ "." +:+ two_digits (h mod 100).

(** The format specs [.2f] ([plus = false]) and [+.2f] ([plus = true]) of a
    float: CPython prints the exact binary value rounded to two decimals,
    half to even, keeps the sign of a negative zero and ignores the sign of
    a nan. *)
Definition format_2f (plus : bool) (x : float) : string :=
  let sign (negative : bool) : string :=
    if negative then "-" else if plus then "+" else EmptyString in
  match Prim2SF x with
  | S754_nan => sign false +:+ "nan"
  | S754_infinity negative => sign negative +:+ "inf"
  | S754_zero negative => sign negative +:+ "0.00"
  | S754_finite negative m e => sign negative +:+ fixed2 (hundredths m e)
  end.

(** [needle in hay] on strings. *)
Definition contains (hay needle : string) : Prop :=
  exists before after : string, hay = before +:+ needle +:+ after.

(** ** Data *)

(** One service of the fetched document,
    [{"checker": str, "components": {"attack": float, "defense": float}}];
    [None] is an absent key. *)
Record Components : Type := {
  attack : option float;
  defense : option float
}.

Record ServiceInfo : Type := {
  checker : option string;
  components : option Components
}.

(** A JSON object in insertion order. *)
Abbreviation pydict V := (list (string * V)).

(** The value of a service in [last_service_states] (lines 169-173). *)
Record ServiceState : Type := {
  state_checker : option string;
  state_attack : float;
  state_defense : float
}.

(** The value of a service in [prev_deltas] (lines 158-161). *)
Record DeltaRecord : Type := {
  attack_delta : option float;
  defense_delta : option float
}.

(** The variables that outlive one turn of the loop: the global
    [last_service_states] and the locals [prev_deltas] and [last_tick]. *)
Record MonitorState : Type := {
  last_service_states : gmap string ServiceState;
  prev_deltas : gmap string DeltaRecord;
  last_tick : option string
}.

Definition initial_state : MonitorState :=
  {| last_service_states := ∅; prev_deltas := ∅; last_tick := None |}.

Record Config : Type := {
  ATK_DEF_DROP_PERCENTAGE_THRESHOLD : float;
  ATK_DEF_MIN_SCORE_THRESHOLD : float
}.

(** The defaults of lines 31-32. *)
Definition default_config : Config :=
  {| ATK_DEF_DROP_PERCENTAGE_THRESHOLD := 0.5;
     ATK_DEF_MIN_SCORE_THRESHOLD := 10.0 |}.

(** [d.get(key)] and [d[key]] on an insertion-ordered dict. *)
Fixpoint dict_get {V : Type} (d : pydict V) (key : string) : option V :=
  match d with
  | [] => None
  | (k, v) :: rest => if decide (k = key) then Some v else dict_get rest key
  end.

Definition py_getitem {V : Type} (d : pydict V) (key : string) : result V :=
  match dict_get d key with
  | Some v => Ok v
  | None => Raise (KeyError key)
  end.

Definition keys {V : Type} (d : pydict V) : list string := d.*1.

(** [service_info.get("components", {}).get("attack", 0.0)] and its
    defense twin. *)
Definition attack_score (service_info : ServiceInfo) : float :=
  default 0 (components service_info ≫= attack).

Definition defense_score (service_info : ServiceInfo) : float :=
  default 0 (components service_info ≫= defense).

(** The entry written to [current_service_states] (lines 169-173). *)
Definition service_state (service_info : ServiceInfo) : ServiceState :=
  {| state_checker := checker service_info;
     state_attack := attack_score service_info;
     state_defense := defense_score service_info |}.

(** [current - prev if prev is not None else None] (lines 121-122). *)
Definition score_delta (current_score : float) (prev_score : option float)
  : option float :=
  match prev_score with
  | Some prev => Some (current_score - prev)
  | None => None
  end.

(** The test of line 151. *)
Definition checker_regressed (prev_checker_status current_checker_status : option string)
  : bool :=
  (bool_decide (prev_checker_status = Some "SUCCESS")
   || bool_decide (prev_checker_status = Some "RECOVERING"))
  && (bool_decide (current_checker_status = Some "OFFLINE")
      || bool_decide (current_checker_status = Some "MUMBLE")).

(** The deltas of one item of [current_team_services] against the stored
    scores (lines 117-122), as they are written to [prev_deltas]
    (lines 158-161). *)
Definition service_deltas (last_service_states : gmap string ServiceState)
    (item : string * ServiceInfo) : DeltaRecord :=
  let service_name := item.1 in
  let service_info := item.2 in
  let current_attack_score := attack_score service_info in
  let current_defense_score := defense_score service_info in
  let prev_attack_score := state_attack <$> last_service_states !! service_name in
  let prev_defense_score := state_defense <$> last_service_states !! service_name in
  {| attack_delta := score_delta current_attack_score prev_attack_score;
     defense_delta := score_delta current_defense_score prev_defense_score |}.

(** The checker status alert of lines 148-155. *)
Definition checker_issue (last_service_states : gmap string ServiceState)
    (item : string * ServiceInfo) : bool :=
  let service_name := item.1 in
  let current_checker_status := checker item.2 in
  match last_service_states !! service_name with
  | Some prev_state =>
      checker_regressed (state_checker prev_state) current_checker_status
  | None => false
  end.

(** The lists and the delta store that the loop of lines 115-161 fills. *)
Record TickAcc : Type := {
  acc_prev_deltas : gmap string DeltaRecord;
  faulty_services : list string;
  attack_issue_services : list string;
  defense_issue_services : list string
}.

Definition append_if (flag : bool) (names : list string) (name : string)
  : list string :=
  if flag then names ++ [name] else names.

Section Monitor.

Context (cfg : Config).

(** The delta drop test of lines 131-134 (attack) and 140-143 (defense). *)
Definition delta_dropped (delta prev_delta : option float) : result bool :=
  match delta, prev_delta with
  | Some d, Some pd =>
      if py_ne0 pd then
        if d <? pd then
          drop_percentage ← py_truediv (abs (d - pd)) (abs pd);
          mret ((ATK_DEF_DROP_PERCENTAGE_THRESHOLD cfg <=? drop_percentage)
                && (ATK_DEF_MIN_SCORE_THRESHOLD cfg <=? abs pd))
        else mret false
      else mret false
  | _, _ => mret false
  end.

(** The body of the loop of lines 115-161, for one item of
    [current_team_services]. *)
Definition monitor_service
    (last_service_states : gmap string ServiceState)
    (prev_deltas_snapshot : gmap string DeltaRecord)
    (acc : TickAcc) (item : string * ServiceInfo) : result TickAcc :=
  let service_name := item.1 in
  let deltas := service_deltas last_service_states item in
  let prev_attack_delta := prev_deltas_snapshot !! service_name ≫= attack_delta in
  attack_issue ← delta_dropped (attack_delta deltas) prev_attack_delta;
  let prev_defense_delta := prev_deltas_snapshot !! service_name ≫= defense_delta in
  defense_issue ← delta_dropped (defense_delta deltas) prev_defense_delta;
  let faulty := checker_issue last_service_states item in
  mret {| acc_prev_deltas := <[service_name := deltas]> (acc_prev_deltas acc);
          faulty_services := append_if faulty (faulty_services acc) service_name;
          attack_issue_services :=
            append_if attack_issue (attack_issue_services acc) service_name;
          defense_issue_services :=
            append_if defense_issue (defense_issue_services acc) service_name |}.

(** The loop of lines 115-161; [prev_deltas_snapshot] is the copy of
    line 114. *)
Definition process_tick (st : MonitorState)
    (current_team_services : pydict ServiceInfo) : result TickAcc :=
  let prev_deltas_snapshot := prev_deltas st in
  for_loop (monitor_service (last_service_states st) prev_deltas_snapshot)
    current_team_services
    {| acc_prev_deltas := prev_deltas st;
       faulty_services := [];
       attack_issue_services := [];
       defense_issue_services := [] |}.

(** The loop of lines 165-177 of a repeated poll, which fills
    [current_service_states]. *)
Definition current_states (current_team_services : pydict ServiceInfo)
  : gmap string ServiceState :=
  fold_left (fun states item => <[item.1 := service_state item.2]> states)
    current_team_services ∅.

(** *** The alerts (lines 181-222) *)

(** The text appended at line 188. *)
Definition down_text (service_name status_term : string) : string :=
  "`" +:+ service_name +:+ "` is `" +:+ status_term +:+ "`".

(** One turn of the loop of lines 185-188. *)
Definition down_line (current_team_services : pydict ServiceInfo)
    (down_msgs : list string) (service_name : string) : result (list string) :=
  service_info ← py_getitem current_team_services service_name;
  let current_status := default "OFFLINE"%string (checker service_info) in
  let status_term :=
    if decide (current_status = "OFFLINE"%string) then "offline" else "mumble" in
  mret (down_msgs ++ [down_text service_name status_term]).

Definition down_alert (current_team_services : pydict ServiceInfo)
    (faulty : list string) : result (list string) :=
  match faulty with
  | [] => mret []
  | _ =>
      down_msgs ← for_loop (down_line current_team_services) faulty [];
      mret [String.concat nl down_msgs +:+ nl +:+ "@everyone"]
  end.

(** Lines 220-222: the joined lines are sent when there are any. *)
Definition alert_message (lines : list string) : list string :=
  match lines with
  | [] => []
  | _ => [String.concat nl lines +:+ nl +:+ "@everyone"]
  end.

(** The text appended at lines 207 and 219. *)
Definition issue_text (label service_name : string)
    (percent_change previous_delta current_delta : float) : string :=
  "`" +:+ service_name +:+ "` has `" +:+ label +:+ "` issue" +:+ nl
  +:+ "-# " +:+ format_2f false (abs percent_change) +:+ "% change ("
  +:+ format_2f true previous_delta +:+ "->" +:+ format_2f true current_delta
  +:+ ")".

(** One turn of the loops of lines 196-207 ([label = "ATTACK"]) and
    208-219 ([label = "DEFENSE"]), which differ in the fields they read. *)
Definition issue_line (label : string)
    (delta_of : DeltaRecord -> option float)
    (state_score : ServiceState -> float)
    (score : ServiceInfo -> float)
    (last_service_states : gmap string ServiceState)
    (prev_deltas_snapshot : gmap string DeltaRecord)
    (current_team_services : pydict ServiceInfo)
    (msgs : list string) (service_name : string) : result (list string) :=
  let previous_delta := prev_deltas_snapshot !! service_name ≫= delta_of in
  let prev_score := state_score <$> last_service_states !! service_name in
  service_info ← py_getitem current_team_services service_name;
  let current_score := score service_info in
  let current_delta := score_delta current_score prev_score in
  match previous_delta, current_delta with
  | Some pd, Some cd =>
      percent_change ←
        (if py_ne0 pd
         then quotient ← py_truediv (cd - pd) (abs pd); mret (quotient * 100)
         else mret 0);
      mret (msgs ++ [issue_text label service_name percent_change pd cd])
  | _, _ => mret msgs
  end.

Definition drop_alert
    (last_service_states : gmap string ServiceState)
    (prev_deltas_snapshot : gmap string DeltaRecord)
    (current_team_services : pydict ServiceInfo)
    (attack_issues defense_issues : list string) : result (list string) :=
  atk_msgs ←
    for_loop (issue_line "ATTACK" attack_delta state_attack attack_score
                last_service_states prev_deltas_snapshot current_team_services)
      attack_issues [];
  def_msgs ←
    for_loop (issue_line "DEFENSE" defense_delta state_defense defense_score
                last_service_states prev_deltas_snapshot current_team_services)
      defense_issues [];
  mret (alert_message (atk_msgs ++ def_msgs)).

(** The messages handed to [send_discord_message], in order. *)
Definition send_alerts
    (last_service_states : gmap string ServiceState)
    (prev_deltas_snapshot : gmap string DeltaRecord)
    (current_team_services : pydict ServiceInfo)
    (faulty attack_issues defense_issues : list string) : result (list string) :=
  down ← down_alert current_team_services faulty;
  drops ← drop_alert last_service_states prev_deltas_snapshot
             current_team_services attack_issues defense_issues;
  mret (down ++ drops).

(** *** One turn of the [while True] loop (lines 92-228)

    [team_data] is what [fetch_score_data] returned, [None] for a failed
    fetch.  The result is the state after the turn and the messages sent
    during it.  In a repeated poll the three lists of lines 106-108 stay
    empty, so the loops that read [prev_deltas_snapshot] do not run; the
    snapshot passed there is immaterial. *)
Definition monitor_iteration (st : MonitorState)
    (team_data : option (pydict (pydict ServiceInfo)))
  : result (MonitorState * list string) :=
  match team_data with
  | None | Some [] => mret (st, [])
  | Some ((CurrTick, current_team_services) :: _) =>
      match current_team_services with
      | [] => mret (st, [])
      | _ =>
          let current_service_states : gmap string ServiceState := ∅ in
          if bool_decide (last_tick st ≠ Some CurrTick) then
            acc ← process_tick st current_team_services;
            msgs ← send_alerts (last_service_states st) (prev_deltas st)
                      current_team_services (faulty_services acc)
                      (attack_issue_services acc) (defense_issue_services acc);
            mret ({| last_service_states := current_service_states;
                     prev_deltas := acc_prev_deltas acc;
                     last_tick := Some CurrTick |}, msgs)
          else
            let current_service_states := current_states current_team_services in
            msgs ← send_alerts (last_service_states st) (prev_deltas st)
                      current_team_services [] [] [];
            mret ({| last_service_states := current_service_states;
                     prev_deltas := prev_deltas st;
                     last_tick := last_tick st |}, msgs)
      end
  end.

(** The loop over the successive results of [fetch_score_data]. *)
Fixpoint monitor_services (st : MonitorState)
    (fetched : list (option (pydict (pydict ServiceInfo))))
  : result (MonitorState * list string) :=
  match fetched with
  | [] => mret (st, [])
  | team_data :: rest =>
      r ← monitor_iteration st team_data;
      r' ← monitor_services r.1 rest;
      mret (r'.1, r.2 ++ r'.2)
  end.

End Monitor.

(** ** Values of the computations that never raise *)

(** The boolean that [delta_dropped] returns. *)
Definition dropped (cfg : Config) (delta prev_delta : option float) : bool :=
  match delta_dropped cfg delta prev_delta with
  | Ok flag => flag
  | Raise _ => false
  end.

(** The loop state that [monitor_service] returns. *)
Definition tick_step (cfg : Config)
    (last_service_states : gmap string ServiceState)
    (prev_deltas_snapshot : gmap string DeltaRecord)
    (acc : TickAcc) (item : string * ServiceInfo) : TickAcc :=
  match monitor_service cfg last_service_states prev_deltas_snapshot acc item with
  | Ok acc' => acc'
  | Raise _ => acc
  end.

(** The attack and defense tests of one item against the snapshot. *)
Definition attack_dropped (cfg : Config) (st : MonitorState)
    (item : string * ServiceInfo) : bool :=
  dropped cfg (attack_delta (service_deltas (last_service_states st) item))
    (prev_deltas st !! item.1 ≫= attack_delta).

Definition defense_dropped (cfg : Config) (st : MonitorState)
    (item : string * ServiceInfo) : bool :=
  dropped cfg (defense_delta (service_deltas (last_service_states st) item))
    (prev_deltas st !! item.1 ≫= defense_delta).

(** The names of the items that pass a test, in order. *)
Definition flagged (test : string * ServiceInfo -> bool)
    (current_team_services : pydict ServiceInfo) : list string :=
  (List.filter test current_team_services).*1.

(** The writes of lines 158-161 of a whole tick. *)
Definition record_deltas (last_service_states : gmap string ServiceState)
    (current_team_services : pydict ServiceInfo)
    (store : gmap string DeltaRecord) : gmap string DeltaRecord :=
  fold_left (fun m item => <[item.1 := service_deltas last_service_states item]> m)
    current_team_services store.

(** The lines that one turn of the loops of lines 185-188, 196-207 and
    208-219 appends. *)
Definition down_lines (current_team_services : pydict ServiceInfo)
    (service_name : string) : list string :=
  match down_line current_team_services [] service_name with
  | Ok lines => lines
  | Raise _ => []
  end.

Definition issue_lines (label : string)
    (delta_of : DeltaRecord -> option float)
    (state_score : ServiceState -> float)
    (score : ServiceInfo -> float)
    (last_service_states : gmap string ServiceState)
    (prev_deltas_snapshot : gmap string DeltaRecord)
    (current_team_services : pydict ServiceInfo)
    (service_name : string) : list string :=
  match issue_line label delta_of state_score score last_service_states
          prev_deltas_snapshot current_team_services [] service_name with
  | Ok lines => lines
  | Raise _ => []
  end.

(** [atk_msgs + def_msgs] at line 221. *)
Definition drop_lines
    (last_service_states : gmap string ServiceState)
    (prev_deltas_snapshot : gmap string DeltaRecord)
    (current_team_services : pydict ServiceInfo)
    (attack_issues defense_issues : list string) : list string :=
  mjoin (issue_lines "ATTACK" attack_delta state_attack attack_score
           last_service_states prev_deltas_snapshot current_team_services
         <$> attack_issues)
  ++ mjoin (issue_lines "DEFENSE" defense_delta state_defense defense_score
              last_service_states prev_deltas_snapshot current_team_services
            <$> defense_issues).

(** The messages of a tick that is processed: the down alert of lines
    183-190, then the drop alert of lines 192-222. *)
Definition down_messages (current_team_services : pydict ServiceInfo)
    (faulty : list string) : list string :=
  match faulty with
  | [] => []
  | _ => [String.concat nl (mjoin (down_lines current_team_services <$> faulty))
          +:+ nl +:+ "@everyone"]
  end.

Definition tick_alerts (cfg : Config) (st : MonitorState)
    (current_team_services : pydict ServiceInfo) : list string :=
  down_messages current_team_services
    (flagged (checker_issue (last_service_states st)) current_team_services)
  ++ alert_message
       (drop_lines (last_service_states st) (prev_deltas st) current_team_services
          (flagged (attack_dropped cfg st) current_team_services)
          (flagged (defense_dropped cfg st) current_team_services)).

(** The state after a tick that is processed, and after a repeated poll. *)
Definition after_new_tick (st : MonitorState) (CurrTick : string)
    (current_team_services : pydict ServiceInfo) : MonitorState :=
  {| last_service_states := ∅;
     prev_deltas :=
       record_deltas (last_service_states st) current_team_services (prev_deltas st);
     last_tick := Some CurrTick |}.

Definition after_repeated_poll (st : MonitorState)
    (current_team_services : pydict ServiceInfo) : MonitorState :=
  {| last_service_states := current_states current_team_services;
     prev_deltas := prev_deltas st;
     last_tick := last_tick st |}.

(** [CurrTick] of a poll that reaches the comparison (line 98); [None] for
    a poll that lines 94-103 skip. *)
Definition poll_tick (team_data : option (pydict (pydict ServiceInfo)))
  : option string :=
  match team_data with
  | Some ((CurrTick, _ :: _) :: _) => Some CurrTick
  | _ => None
  end.

(** The polls between the first poll of [tick] and the first poll of the
    next tick. *)
Definition repeated_polls (tick : string)
    (fetched : list (option (pydict (pydict ServiceInfo)))) : Prop :=
  Forall (fun team_data =>
            poll_tick team_data = None \/ poll_tick team_data = Some tick) fetched.

(** ** Sample payloads *)

Definition sample_service (status : string) (atk def : float) : ServiceInfo :=
  {| checker := Some status;
     components := Some {| attack := Some atk; defense := Some def |} |}.

Definition sample_poll (tick : string) (services : pydict ServiceInfo)
  : option (pydict (pydict ServiceInfo)) :=
  Some [(tick, services)].

(** A state in the middle of tick ["1"]: ["web"] was last seen with scores
    100 and 50, and its last deltas were 20 and 0. *)
Definition sample_state : MonitorState :=
  {| last_service_states :=
       {["web" := {| state_checker := Some "SUCCESS";
                     state_attack := 100; state_defense := 50 |}]};
     prev_deltas :=
       {["web" := {| attack_delta := Some 20; defense_delta := Some 0 |}]};
     last_tick := Some "1" |}.

(** ** The qualifying condition in the words of the specification

    Both deltas exist, the previous one is not zero, the current one is
    smaller, the drop percentage reaches the percentage threshold and the
    previous delta reaches the minimum absolute threshold. *)
Definition spec_regression (cfg : Config) (previous_delta current_delta : option float)
  : Prop :=
  exists pd cd : float,
    previous_delta = Some pd /\ current_delta = Some cd /\
    (pd =? 0) = false /\
    (cd <? pd) = true /\
    (ATK_DEF_DROP_PERCENTAGE_THRESHOLD cfg <=? abs (cd - pd) / abs pd) = true /\
    (ATK_DEF_MIN_SCORE_THRESHOLD cfg <=? abs pd) = true.

(** ** Runs of the loop *)

(** The record of a service that has no stored score (lines 121-122). *)
Definition no_delta : DeltaRecord :=
  {| attack_delta := None; defense_delta := None |}.


(** What a poll contributes: nothing when lines 94-103 skip it, and
    otherwise its first key with the services under it (lines 98-99). *)
Definition useful_part (team_data : option (pydict (pydict ServiceInfo)))
  : option (option (pydict (pydict ServiceInfo))) :=
  match team_data with
  | Some ((CurrTick, (_ :: _) as current_team_services) :: _) =>
      Some (Some [(CurrTick, current_team_services)])
  | _ => None
  end.

Definition useful_polls (fetched : list (option (pydict (pydict ServiceInfo))))
  : list (option (pydict (pydict ServiceInfo))) :=
  omap useful_part fetched.

(** ** Settings from the environment (lines 23-38)

    [os.environ] is a map from names to texts.  The builtins [int] and
    [float] on a text are parameters of the model: they return [None] where
    Python raises [ValueError]. *)

Record Settings : Type := {
  DISCORD_BOT_TOKEN : string;
  DISCORD_CHANNEL_ID : Z;
  API_HOST_PORT : string;
  TICK_LENGTH_SECONDS : Z;
  TEAM_ID : Z;
  alert_config : Config
}.

Inductive StartupError : Type :=
  | EnvKeyError (name : string)
  | EnvValueError (text : string).

Inductive startup (A : Type) : Type :=
  | Loaded (value : A)
  | Failed (error : StartupError).

Arguments Loaded {A} value.
Arguments Failed {A} error.

#[global] Instance startup_ret : MRet startup := fun A value => Loaded value.

#[global] Instance startup_bind : MBind startup := fun A B f m =>
  match m with
  | Loaded value => f value
  | Failed error => Failed error
  end.

Section Environment.

Context (py_int : string -> option Z) (py_float : string -> option float).

(** [os.environ[name]]. *)
Definition environ_getitem (environ : gmap string string) (name : string)
  : startup string :=
  match environ !! name with
  | Some text => Loaded text
  | None => Failed (EnvKeyError name)
  end.

(** [int(os.environ[name])]. *)
Definition environ_int (environ : gmap string string) (name : string) : startup Z :=
  text ← environ_getitem environ name;
  match py_int text with
  | Some n => Loaded n
  | None => Failed (EnvValueError text)
  end.

(** [float(os.environ.get(name, fallback))]; [float] of a float is that
    float. *)
Definition environ_float (environ : gmap string string) (name : string)
    (fallback : float) : startup float :=
  match environ !! name with
  | Some text =>
      match py_float text with
      | Some x => Loaded x
      | None => Failed (EnvValueError text)
      end
  | None => Loaded fallback
  end.

(** The body of the [try] of lines 24-32. *)
Definition read_settings (environ : gmap string string) : startup Settings :=
  token ← environ_getitem environ "DISCORD_BOT_TOKEN";
  channel ← environ_int environ "DISCORD_CHANNEL_ID";
  host_port ← environ_getitem environ "API_HOST_PORT";
  tick_length ← environ_int environ "TICK_LENGTH_SECONDS";
  team ← environ_int environ "TEAM_ID";
  percentage ← environ_float environ "ATK_DEF_DROP_PERCENTAGE_THRESHOLD" 0.5;
  min_score ← environ_float environ "ATK_DEF_MIN_SCORE_THRESHOLD" 10.0;
  mret {| DISCORD_BOT_TOKEN := token;
          DISCORD_CHANNEL_ID := channel;
          API_HOST_PORT := host_port;
          TICK_LENGTH_SECONDS := tick_length;
          TEAM_ID := team;
          alert_config :=
            {| ATK_DEF_DROP_PERCENTAGE_THRESHOLD := percentage;
               ATK_DEF_MIN_SCORE_THRESHOLD := min_score |} |}.

(** The handlers of lines 33-38: both errors end the process with
    [exit(1)]; [None] is a process that goes on. *)
Definition startup_exit_code (environ : gmap string string) : option Z :=
  match read_settings environ with
  | Loaded _ => None
  | Failed (EnvKeyError _) => Some 1%Z
  | Failed (EnvValueError _) => Some 1%Z
  end.

End Environment.

(** A stand-in for [int] that reads one and two digit numerals, for the
    sample environment. *)
Definition sample_int (text : string) : option Z :=
  match text with
  | String c EmptyString => Z.of_nat <$> Ascii.is_nat c
  | String c (String d EmptyString) =>
      match Ascii.is_nat c, Ascii.is_nat d with
      | Some m, Some n => Some (Z.of_nat (10 * m + n))
      | _, _ => None
      end
  | _ => None
  end.

Definition sample_float (text : string) : option float :=
  if decide (text = "0.5"%string) then Some 0.5
  else if decide (text = "0.25"%string) then Some 0.25
  else None.

Definition sample_environ : gmap string string :=
  <["DISCORD_BOT_TOKEN" := "secret"%string]>
    (<["DISCORD_CHANNEL_ID" := "42"%string]>
       (<["API_HOST_PORT" := "10.42.251.2:8080"%string]>
          (<["TICK_LENGTH_SECONDS" := "60"%string]>
             (<["TEAM_ID" := "7"%string]> ∅)))).

(** * Lemmas *)

(** ** The exception monad and the loop *)

Lemma bind_ret {A B : Type} (a : A) (f : A -> result B) : (Ok a ≫= f) = f a.
Proof. reflexivity. Qed.

Lemma for_loop_fold {A S : Type} (body : S -> A -> result S) (step : S -> A -> S)
    (items : list A) :
  (forall s item, item ∈ items -> body s item = Ok (step s item)) ->
  forall s, for_loop body items s = Ok (fold_left step items s).
Proof.
  induction items as [|item rest IH]; intros Hbody s; simpl.
  - reflexivity.
  - rewrite Hbody by left. simpl. apply IH.
    intros s' item' Hin. apply Hbody. right. exact Hin.
Qed.

(** ** Floats *)

Lemma abs_ne0 (x : float) : py_ne0 x = true -> (abs x =? 0) = false.
Proof.
  unfold py_ne0. rewrite !FloatAxioms.eqb_spec, FloatAxioms.abs_spec.
  destruct (Prim2SF x) as [s|s| |s m e]; simpl; try discriminate; reflexivity.
Qed.

(** ** The drop test *)

Lemma delta_dropped_ok (cfg : Config) (delta prev_delta : option float) :
  delta_dropped cfg delta prev_delta = Ok (dropped cfg delta prev_delta).
Proof.
  unfold dropped, delta_dropped.
  destruct delta as [d|], prev_delta as [pd|]; try reflexivity.
  destruct (py_ne0 pd) eqn:Hne; [|reflexivity].
  destruct (d <? pd); [|reflexivity].
  unfold py_truediv. rewrite (abs_ne0 pd Hne). reflexivity.
Qed.

Lemma dropped_spec (cfg : Config) (delta prev_delta : option float) :
  dropped cfg delta prev_delta = true <-> spec_regression cfg prev_delta delta.
Proof.
  unfold dropped, delta_dropped, spec_regression.
  destruct delta as [d|], prev_delta as [pd|]; simpl;
    try (split; [discriminate | intros (? & ? & ? & ? & _); discriminate]).
  destruct (py_ne0 pd) eqn:Hne.
  - destruct (d <? pd) eqn:Hlt.
    + unfold py_truediv. rewrite (abs_ne0 pd Hne). simpl.
      rewrite andb_true_iff. split.
      * intros [Hthr Hmin]. exists pd, d. unfold py_ne0 in Hne.
        apply negb_true_iff in Hne. auto 10.
      * intros (pd' & d' & [= <-] & [= <-] & _ & _ & Hthr & Hmin). auto.
    + split; [discriminate|].
      intros (pd' & d' & [= <-] & [= <-] & _ & Hlt' & _). congruence.
  - split; [discriminate|].
    intros (pd' & d' & [= <-] & _ & Hz & _). unfold py_ne0 in Hne.
    rewrite Hz in Hne. discriminate.
Qed.

Lemma dropped_zero (cfg : Config) (delta : option float) (pd : float) :
  (pd =? 0) = true -> dropped cfg delta (Some pd) = false.
Proof.
  intros Hz. unfold dropped, delta_dropped, py_ne0. rewrite Hz.
  destruct delta; reflexivity.
Qed.

(** ** Insertion-ordered dicts *)

Lemma elem_of_keys {V : Type} (d : pydict V) (key : string) :
  key ∈ keys d <-> exists v, (key, v) ∈ d.
Proof.
  unfold keys. rewrite list_elem_of_fmap. split.
  - intros ([k v] & -> & Hin). exists v. exact Hin.
  - intros (v & Hin). exists (key, v). split; [reflexivity | exact Hin].
Qed.

Lemma dict_get_Some_elem {V : Type} (d : pydict V) (key : string) (v : V) :
  dict_get d key = Some v -> (key, v) ∈ d.
Proof.
  induction d as [|[k w] rest IH]; simpl; [discriminate|].
  destruct (decide (k = key)) as [->|Hne].
  - intros [= ->]. left.
  - intros H. right. apply IH, H.
Qed.

Lemma dict_get_is_Some {V : Type} (d : pydict V) (key : string) :
  key ∈ keys d -> exists v, dict_get d key = Some v.
Proof.
  induction d as [|[k w] rest IH]; simpl.
  - intros H. inversion H.
  - intros H. destruct (decide (k = key)) as [->|Hne]; [eauto|].
    apply IH. apply elem_of_cons in H as [H|H]; [congruence | exact H].
Qed.

Lemma dict_get_unique {V : Type} (d : pydict V) (key : string) (v : V) :
  NoDup (keys d) -> (key, v) ∈ d -> dict_get d key = Some v.
Proof.
  induction d as [|[k w] rest IH]; simpl; intros Hnd Hin.
  - inversion Hin.
  - apply NoDup_cons in Hnd as [Hk Hnd].
    apply elem_of_cons in Hin as [[= <- <-]|Hin].
    + rewrite decide_True by reflexivity. reflexivity.
    + destruct (decide (k = key)) as [->|Hne]; [|auto].
      exfalso. apply Hk. apply elem_of_keys. eauto.
Qed.

Lemma elem_of_unique {V : Type} (d : pydict V) (key : string) (v w : V) :
  NoDup (keys d) -> (key, v) ∈ d -> (key, w) ∈ d -> v = w.
Proof.
  intros Hnd Hv Hw.
  apply (dict_get_unique d key v Hnd) in Hv.
  apply (dict_get_unique d key w Hnd) in Hw. congruence.
Qed.

(** ** The items that pass a test *)

Lemma elem_of_flagged (test : string * ServiceInfo -> bool)
    (services : pydict ServiceInfo) (name : string) :
  name ∈ flagged test services <->
  exists info, (name, info) ∈ services /\ test (name, info) = true.
Proof.
  unfold flagged. rewrite list_elem_of_fmap. split.
  - intros ([k info] & -> & Hin). apply list_elem_of_In, filter_In in Hin as [Hin Ht].
    exists info. split; [apply list_elem_of_In, Hin | exact Ht].
  - intros (info & Hin & Ht). exists (name, info). split; [reflexivity|].
    apply list_elem_of_In, filter_In. split; [apply list_elem_of_In, Hin | exact Ht].
Qed.

Lemma flagged_unique (test : string * ServiceInfo -> bool)
    (services : pydict ServiceInfo) (name : string) (info : ServiceInfo) :
  NoDup (keys services) -> (name, info) ∈ services ->
  name ∈ flagged test services <-> test (name, info) = true.
Proof.
  intros Hnd Hin. rewrite elem_of_flagged. split.
  - intros (info' & Hin' & Ht).
    rewrite (elem_of_unique services name info info' Hnd Hin Hin'). exact Ht.
  - intros Ht. eauto.
Qed.

Lemma flagged_keys (test : string * ServiceInfo -> bool)
    (services : pydict ServiceInfo) (name : string) :
  name ∈ flagged test services -> name ∈ keys services.
Proof.
  rewrite elem_of_flagged, elem_of_keys. intros (info & Hin & _). eauto.
Qed.

Lemma flagged_cons (test : string * ServiceInfo -> bool)
    (item : string * ServiceInfo) (services : pydict ServiceInfo) :
  flagged test (item :: services) =
  append_if (test item) [] item.1 ++ flagged test services.
Proof. unfold flagged. simpl. destruct (test item); reflexivity. Qed.

(** ** The delta store after a tick *)

Lemma record_deltas_absent (lss : gmap string ServiceState)
    (services : pydict ServiceInfo) (store : gmap string DeltaRecord) (name : string) :
  name ∉ keys services -> record_deltas lss services store !! name = store !! name.
Proof.
  unfold record_deltas. revert store.
  induction services as [|[k info] rest IH]; intros store Hnot; simpl.
  - reflexivity.
  - unfold keys in Hnot. simpl in Hnot. apply not_elem_of_cons in Hnot as [Hne Hnot].
    rewrite IH by exact Hnot. apply lookup_insert_ne. congruence.
Qed.

Lemma record_deltas_present (lss : gmap string ServiceState)
    (services : pydict ServiceInfo) (store : gmap string DeltaRecord)
    (name : string) (info : ServiceInfo) :
  NoDup (keys services) -> (name, info) ∈ services ->
  record_deltas lss services store !! name = Some (service_deltas lss (name, info)).
Proof.
  unfold record_deltas. revert store.
  induction services as [|[k info'] rest IH]; intros store Hnd Hin; simpl.
  - inversion Hin.
  - unfold keys in Hnd. simpl in Hnd. apply NoDup_cons in Hnd as [Hk Hnd].
    apply elem_of_cons in Hin as [[= <- <-]|Hin].
    + fold (record_deltas lss rest (<[name:=service_deltas lss (name, info)]> store)).
      rewrite record_deltas_absent by exact Hk. apply lookup_insert_eq.
    + apply IH; assumption.
Qed.

(** ** The loop of a new tick *)

Lemma tick_step_eq (cfg : Config) (lss : gmap string ServiceState)
    (snap : gmap string DeltaRecord) (acc : TickAcc) (item : string * ServiceInfo) :
  tick_step cfg lss snap acc item =
  {| acc_prev_deltas := <[item.1 := service_deltas lss item]> (acc_prev_deltas acc);
     faulty_services :=
       append_if (checker_issue lss item) (faulty_services acc) item.1;
     attack_issue_services :=
       append_if (dropped cfg (attack_delta (service_deltas lss item))
                    (snap !! item.1 ≫= attack_delta))
         (attack_issue_services acc) item.1;
     defense_issue_services :=
       append_if (dropped cfg (defense_delta (service_deltas lss item))
                    (snap !! item.1 ≫= defense_delta))
         (defense_issue_services acc) item.1 |}.
Proof. unfold tick_step, monitor_service. rewrite !delta_dropped_ok. reflexivity. Qed.

Lemma monitor_service_ok (cfg : Config) (lss : gmap string ServiceState)
    (snap : gmap string DeltaRecord) (acc : TickAcc) (item : string * ServiceInfo) :
  monitor_service cfg lss snap acc item = Ok (tick_step cfg lss snap acc item).
Proof. unfold tick_step, monitor_service. rewrite !delta_dropped_ok. reflexivity. Qed.

Lemma append_if_app (flag : bool) (names : list string) (name : string) :
  append_if flag names name = names ++ append_if flag [] name.
Proof. destruct flag; simpl; [reflexivity | symmetry; apply app_nil_r]. Qed.

Lemma tick_fold (cfg : Config) (lss : gmap string ServiceState)
    (snap : gmap string DeltaRecord) (services : pydict ServiceInfo) (acc : TickAcc) :
  fold_left (tick_step cfg lss snap) services acc =
  {| acc_prev_deltas := record_deltas lss services (acc_prev_deltas acc);
     faulty_services := faulty_services acc ++ flagged (checker_issue lss) services;
     attack_issue_services :=
       attack_issue_services acc ++
       flagged (fun item => dropped cfg (attack_delta (service_deltas lss item))
                              (snap !! item.1 ≫= attack_delta)) services;
     defense_issue_services :=
       defense_issue_services acc ++
       flagged (fun item => dropped cfg (defense_delta (service_deltas lss item))
                              (snap !! item.1 ≫= defense_delta)) services |}.
Proof.
  revert acc. induction services as [|item rest IH]; intros acc.
  - destruct acc. simpl. unfold flagged. simpl. rewrite !app_nil_r. reflexivity.
  - simpl fold_left. rewrite IH, tick_step_eq. simpl.
    rewrite !flagged_cons, !app_assoc, <- !append_if_app. reflexivity.
Qed.

Lemma process_tick_ok (cfg : Config) (st : MonitorState) (services : pydict ServiceInfo) :
  process_tick cfg st services =
  Ok {| acc_prev_deltas :=
          record_deltas (last_service_states st) services (prev_deltas st);
        faulty_services := flagged (checker_issue (last_service_states st)) services;
        attack_issue_services := flagged (attack_dropped cfg st) services;
        defense_issue_services := flagged (defense_dropped cfg st) services |}.
Proof.
  unfold process_tick.
  rewrite (for_loop_fold _ (tick_step cfg (last_service_states st) (prev_deltas st)))
    by (intros; apply monitor_service_ok).
  rewrite tick_fold. reflexivity.
Qed.

(** ** The alert texts *)

Lemma append_loop {A : Type} (body : list string -> A -> result (list string))
    (lines : A -> list string) (items : list A) :
  (forall msgs item, item ∈ items -> body msgs item = Ok (msgs ++ lines item)) ->
  forall msgs, for_loop body items msgs = Ok (msgs ++ mjoin (lines <$> items)).
Proof.
  induction items as [|item rest IH]; intros Hbody msgs; simpl.
  - rewrite app_nil_r. reflexivity.
  - rewrite Hbody by left. simpl. rewrite IH.
    + rewrite app_assoc. reflexivity.
    + intros msgs' item' Hin. apply Hbody. right. exact Hin.
Qed.

Lemma down_line_ok (services : pydict ServiceInfo) (msgs : list string) (name : string) :
  name ∈ keys services ->
  down_line services msgs name = Ok (msgs ++ down_lines services name).
Proof.
  intros Hin. destruct (dict_get_is_Some services name Hin) as [info Hget].
  unfold down_lines, down_line, py_getitem. rewrite Hget. reflexivity.
Qed.

Lemma down_lines_eq (services : pydict ServiceInfo) (name : string) (info : ServiceInfo) :
  dict_get services name = Some info ->
  down_lines services name =
  [down_text name
     (if decide (default "OFFLINE"%string (checker info) = "OFFLINE"%string)
      then "offline" else "mumble")].
Proof.
  intros Hget. unfold down_lines, down_line, py_getitem. rewrite Hget. reflexivity.
Qed.

Lemma down_alert_ok (services : pydict ServiceInfo) (faulty : list string) :
  (forall name, name ∈ faulty -> name ∈ keys services) ->
  down_alert services faulty =
  Ok (match faulty with
      | [] => []
      | _ => [String.concat nl (mjoin (down_lines services <$> faulty))
              +:+ nl +:+ "@everyone"]
      end).
Proof.
  intros Hkeys. unfold down_alert. destruct faulty as [|name rest]; [reflexivity|].
  rewrite (append_loop _ (down_lines services))
    by (intros; apply down_line_ok; auto).
  reflexivity.
Qed.

Section IssueLines.

Context (label : string) (delta_of : DeltaRecord -> option float)
  (state_score : ServiceState -> float) (score : ServiceInfo -> float)
  (lss : gmap string ServiceState) (snap : gmap string DeltaRecord)
  (services : pydict ServiceInfo).

Lemma issue_line_ok (msgs : list string) (name : string) :
  name ∈ keys services ->
  issue_line label delta_of state_score score lss snap services msgs name =
  Ok (msgs ++ issue_lines label delta_of state_score score lss snap services name).
Proof.
  intros Hin. destruct (dict_get_is_Some services name Hin) as [info Hget].
  unfold issue_lines, issue_line, py_getitem. rewrite Hget. simpl.
  destruct (snap !! name ≫= delta_of) as [pd|];
    [|rewrite app_nil_r; reflexivity].
  destruct (score_delta (score info) (state_score <$> lss !! name)) as [cd|];
    [|rewrite app_nil_r; reflexivity].
  destruct (py_ne0 pd) eqn:Hne; [|reflexivity].
  unfold py_truediv. rewrite (abs_ne0 pd Hne). reflexivity.
Qed.

Lemma issue_lines_eq (name : string) (info : ServiceInfo) (prev_state : ServiceState)
    (pd : float) :
  dict_get services name = Some info ->
  lss !! name = Some prev_state ->
  snap !! name ≫= delta_of = Some pd ->
  py_ne0 pd = true ->
  issue_lines label delta_of state_score score lss snap services name =
  [issue_text label name
     ((score info - state_score prev_state - pd) / abs pd * 100)
     pd (score info - state_score prev_state)].
Proof.
  intros Hget Hprev Hpd Hne.
  unfold issue_lines, issue_line, py_getitem. rewrite Hget, Hprev, Hpd. simpl.
  rewrite Hne. unfold py_truediv. rewrite (abs_ne0 pd Hne). reflexivity.
Qed.

Lemma issue_loop_ok (names : list string) :
  (forall name, name ∈ names -> name ∈ keys services) ->
  for_loop (issue_line label delta_of state_score score lss snap services) names [] =
  Ok (mjoin (issue_lines label delta_of state_score score lss snap services
               <$> names)).
Proof.
  intros Hkeys. rewrite (append_loop _ (issue_lines label delta_of state_score score
                                         lss snap services)).
  - reflexivity.
  - intros msgs name Hin. apply issue_line_ok. auto.
Qed.

End IssueLines.

Lemma drop_alert_ok (lss : gmap string ServiceState) (snap : gmap string DeltaRecord)
    (services : pydict ServiceInfo) (attack_issues defense_issues : list string) :
  (forall name, name ∈ attack_issues -> name ∈ keys services) ->
  (forall name, name ∈ defense_issues -> name ∈ keys services) ->
  drop_alert lss snap services attack_issues defense_issues =
  Ok (alert_message (drop_lines lss snap services attack_issues defense_issues)).
Proof.
  intros Ha Hd. unfold drop_alert, drop_lines.
  rewrite !issue_loop_ok by assumption. simpl.
  match goal with |- context [alert_message ?l] => destruct l end; reflexivity.
Qed.

Lemma send_alerts_ok (lss : gmap string ServiceState) (snap : gmap string DeltaRecord)
    (services : pydict ServiceInfo) (faulty attack_issues defense_issues : list string) :
  (forall name, name ∈ faulty -> name ∈ keys services) ->
  (forall name, name ∈ attack_issues -> name ∈ keys services) ->
  (forall name, name ∈ defense_issues -> name ∈ keys services) ->
  send_alerts lss snap services faulty attack_issues defense_issues =
  Ok (down_messages services faulty
      ++ alert_message (drop_lines lss snap services attack_issues defense_issues)).
Proof.
  intros Hf Ha Hd. unfold send_alerts.
  rewrite down_alert_ok, drop_alert_ok by assumption. reflexivity.
Qed.

(** ** One turn of the loop *)

Lemma iteration_new_tick (cfg : Config) (st : MonitorState) (tick : string)
    (services : pydict ServiceInfo) (rest : pydict (pydict ServiceInfo)) :
  services <> [] -> last_tick st <> Some tick ->
  monitor_iteration cfg st (Some ((tick, services) :: rest)) =
  Ok (after_new_tick st tick services, tick_alerts cfg st services).
Proof.
  intros Hne Htick. unfold monitor_iteration.
  destruct services as [|item items]; [congruence|].
  rewrite bool_decide_true by exact Htick.
  rewrite process_tick_ok. simpl.
  rewrite send_alerts_ok by (intros name; apply flagged_keys).
  reflexivity.
Qed.

Lemma iteration_repeated_poll (cfg : Config) (st : MonitorState) (tick : string)
    (services : pydict ServiceInfo) (rest : pydict (pydict ServiceInfo)) :
  services <> [] -> last_tick st = Some tick ->
  monitor_iteration cfg st (Some ((tick, services) :: rest)) =
  Ok (after_repeated_poll st services, []).
Proof.
  intros Hne Htick. unfold monitor_iteration.
  destruct services as [|item items]; [congruence|].
  rewrite bool_decide_false by (intros H; apply H, Htick).
  reflexivity.
Qed.

Lemma iteration_total (cfg : Config) (st : MonitorState)
    (team_data : option (pydict (pydict ServiceInfo))) :
  exists st' msgs, monitor_iteration cfg st team_data = Ok (st', msgs).
Proof.
  destruct team_data as [[|[tick services] rest]|]; [eexists _, _; reflexivity| |
    eexists _, _; reflexivity].
  destruct services as [|item items]; [eexists _, _; reflexivity|].
  destruct (decide (last_tick st = Some tick)) as [Heq|Hne].
  - rewrite iteration_repeated_poll by (exact Heq || discriminate). eauto.
  - rewrite iteration_new_tick by (exact Hne || discriminate). eauto.
Qed.

Lemma monitor_services_total (cfg : Config)
    (fetched : list (option (pydict (pydict ServiceInfo)))) (st : MonitorState) :
  exists st' msgs, monitor_services cfg st fetched = Ok (st', msgs).
Proof.
  revert st. induction fetched as [|team_data rest IH]; intros st; simpl.
  - eexists _, _. reflexivity.
  - destruct (iteration_total cfg st team_data) as (st1 & msgs1 & ->). simpl.
    destruct (IH st1) as (st2 & msgs2 & ->). simpl. eauto.
Qed.

(** ** The states built by a repeated poll *)

Lemma current_states_fold (services : pydict ServiceInfo)
    (states : gmap string ServiceState) (name : string) :
  name ∉ keys services ->
  fold_left (fun m item => <[item.1 := service_state item.2]> m) services states
    !! name = states !! name.
Proof.
  revert states. induction services as [|[k info] rest IH]; intros states Hnot; simpl.
  - reflexivity.
  - unfold keys in Hnot. simpl in Hnot. apply not_elem_of_cons in Hnot as [Hne Hnot].
    rewrite IH by exact Hnot. apply lookup_insert_ne. congruence.
Qed.

Lemma current_states_absent (services : pydict ServiceInfo) (name : string) :
  name ∉ keys services -> current_states services !! name = None.
Proof.
  intros Hnot. unfold current_states. rewrite current_states_fold by exact Hnot.
  apply lookup_empty.
Qed.

Lemma current_states_present (services : pydict ServiceInfo) (name : string)
    (info : ServiceInfo) :
  NoDup (keys services) -> (name, info) ∈ services ->
  current_states services !! name = Some (service_state info).
Proof.
  unfold current_states. generalize (∅ : gmap string ServiceState).
  induction services as [|[k info'] rest IH]; intros states Hnd Hin; simpl.
  - inversion Hin.
  - unfold keys in Hnd. simpl in Hnd. apply NoDup_cons in Hnd as [Hk Hnd].
    apply elem_of_cons in Hin as [[= <- <-]|Hin].
    + rewrite current_states_fold by exact Hk. apply lookup_insert_eq.
    + apply IH; assumption.
Qed.

(** ** Failed fetches *)

Lemma monitor_services_cons (cfg : Config) (st : MonitorState)
    (team_data : option (pydict (pydict ServiceInfo)))
    (rest : list (option (pydict (pydict ServiceInfo)))) :
  monitor_services cfg st (team_data :: rest) =
  (r ← monitor_iteration cfg st team_data;
   r' ← monitor_services cfg r.1 rest;
   mret (r'.1, r.2 ++ r'.2)).
Proof. reflexivity. Qed.

Lemma monitor_services_failed_fetch (cfg : Config) (st : MonitorState)
    (rest : list (option (pydict (pydict ServiceInfo)))) :
  monitor_services cfg st (None :: rest) = monitor_services cfg st rest.
Proof.
  simpl. destruct (monitor_services cfg st rest) as [[st' msgs]|e]; reflexivity.
Qed.

Lemma monitor_services_payloads (cfg : Config)
    (fetched : list (option (pydict (pydict ServiceInfo)))) (st : MonitorState) :
  monitor_services cfg st fetched =
  monitor_services cfg st (Some <$> omap id fetched).
Proof.
  revert st. induction fetched as [|[team_data|] rest IH]; intros st.
  - reflexivity.
  - change (omap id (Some team_data :: rest)) with (team_data :: omap id rest).
    rewrite fmap_cons, !monitor_services_cons.
    destruct (monitor_iteration cfg st (Some team_data)) as [[st' msgs]|e];
      simpl; [rewrite IH|]; reflexivity.
  - rewrite monitor_services_failed_fetch. apply IH.
Qed.

(** ** Substrings *)

Lemma string_app_assoc (a b c : string) : (a +:+ b) +:+ c = a +:+ b +:+ c.
Proof.
  induction a as [|ch a IH]; [reflexivity|]. exact (f_equal (String ch) IH).
Qed.

Lemma string_app_nil_r (a : string) : a +:+ EmptyString = a.
Proof.
  induction a as [|ch a IH]; [reflexivity|]. exact (f_equal (String ch) IH).
Qed.

Lemma contains_here (needle : string) : contains needle needle.
Proof. exists EmptyString, EmptyString. rewrite string_app_nil_r. reflexivity. Qed.

Lemma contains_app_l (a b needle : string) :
  contains a needle -> contains (a +:+ b) needle.
Proof.
  intros (before & after & ->). exists before, (after +:+ b).
  rewrite !string_app_assoc. reflexivity.
Qed.

Lemma contains_app_r (a b needle : string) :
  contains b needle -> contains (a +:+ b) needle.
Proof.
  intros (before & after & ->). exists (a +:+ before), after.
  rewrite !string_app_assoc. reflexivity.
Qed.

Lemma contains_trans (a b c : string) : contains a b -> contains b c -> contains a c.
Proof.
  intros (before & after & ->) Hbc.
  apply contains_app_r, contains_app_l, Hbc.
Qed.

Lemma contains_concat (sep : string) (lines : list string) (line : string) :
  line ∈ lines -> contains (String.concat sep lines) line.
Proof.
  induction lines as [|first rest IH]; intros Hin; [inversion Hin|].
  destruct rest as [|second rest].
  - apply list_elem_of_singleton in Hin as ->. apply contains_here.
  - change (String.concat sep (first :: second :: rest))
      with (first +:+ sep +:+ String.concat sep (second :: rest)).
    apply elem_of_cons in Hin as [->|Hin].
    + apply contains_app_l, contains_here.
    + apply contains_app_r, contains_app_r, IH, Hin.
Qed.

Lemma alert_message_contains (lines : list string) (line : string) :
  line ∈ lines -> exists msg, alert_message lines = [msg] /\ contains msg line.
Proof.
  intros Hin. destruct lines as [|first rest]; [inversion Hin|].
  eexists. split; [reflexivity|]. apply contains_app_l, contains_concat, Hin.
Qed.

(** ** Every flagged service gets its line *)

Lemma length_join_singletons {A : Type} (lines : A -> list string) (items : list A) :
  (forall item, item ∈ items -> length (lines item) = 1%nat) ->
  length (mjoin (lines <$> items)) = length items.
Proof.
  induction items as [|item rest IH]; intros Hone; [reflexivity|].
  rewrite fmap_cons. cbn [mjoin list_join]. rewrite length_app, Hone by left.
  simpl. f_equal. apply IH. intros item' Hin. apply Hone. right. exact Hin.
Qed.

Lemma dropped_Some (cfg : Config) (delta prev_delta : option float) :
  dropped cfg delta prev_delta = true ->
  exists cd pd, delta = Some cd /\ prev_delta = Some pd /\ py_ne0 pd = true.
Proof.
  intros H. apply dropped_spec in H as (pd & cd & -> & -> & Hz & _).
  exists cd, pd. unfold py_ne0. rewrite Hz. auto.
Qed.

Lemma score_delta_Some (current_score : float) (prev_score : option float) (cd : float) :
  score_delta current_score prev_score = Some cd ->
  exists prev, prev_score = Some prev /\ cd = current_score - prev.
Proof. destruct prev_score as [prev|]; [intros [= <-]; eauto | discriminate]. Qed.

Lemma attack_lines_length (cfg : Config) (st : MonitorState)
    (services : pydict ServiceInfo) (name : string) :
  name ∈ flagged (attack_dropped cfg st) services ->
  length (issue_lines "ATTACK" attack_delta state_attack attack_score
            (last_service_states st) (prev_deltas st) services name) = 1%nat.
Proof.
  intros Hin. pose proof (flagged_keys _ _ _ Hin) as Hkey.
  destruct (dict_get_is_Some services name Hkey) as [info' Hget].
  apply elem_of_flagged in Hin as (info & _ & Hdrop).
  apply dropped_Some in Hdrop as (cd & pd & Hcd & Hpd & Hne).
  simpl in Hcd, Hpd. apply score_delta_Some in Hcd as (prev & Hprev & _).
  destruct (last_service_states st !! name) as [prev_state|] eqn:Hst; [|discriminate].
  rewrite (issue_lines_eq _ _ _ _ _ _ _ name info' prev_state pd); auto.
Qed.

Lemma defense_lines_length (cfg : Config) (st : MonitorState)
    (services : pydict ServiceInfo) (name : string) :
  name ∈ flagged (defense_dropped cfg st) services ->
  length (issue_lines "DEFENSE" defense_delta state_defense defense_score
            (last_service_states st) (prev_deltas st) services name) = 1%nat.
Proof.
  intros Hin. pose proof (flagged_keys _ _ _ Hin) as Hkey.
  destruct (dict_get_is_Some services name Hkey) as [info' Hget].
  apply elem_of_flagged in Hin as (info & _ & Hdrop).
  apply dropped_Some in Hdrop as (cd & pd & Hcd & Hpd & Hne).
  simpl in Hcd, Hpd. apply score_delta_Some in Hcd as (prev & Hprev & _).
  destruct (last_service_states st !! name) as [prev_state|] eqn:Hst; [|discriminate].
  rewrite (issue_lines_eq _ _ _ _ _ _ _ name info' prev_state pd); auto.
Qed.

Lemma drop_lines_length (cfg : Config) (st : MonitorState)
    (services : pydict ServiceInfo) :
  length (drop_lines (last_service_states st) (prev_deltas st) services
            (flagged (attack_dropped cfg st) services)
            (flagged (defense_dropped cfg st) services))
  = (length (flagged (attack_dropped cfg st) services)
     + length (flagged (defense_dropped cfg st) services))%nat.
Proof.
  unfold drop_lines. rewrite length_app. f_equal.
  - apply length_join_singletons. intros name. apply attack_lines_length.
  - apply length_join_singletons. intros name. apply defense_lines_length.
Qed.

(** ** The checker test and the sample drop *)

Lemma checker_regressed_spec (prev_checker_status current_checker_status : option string) :
  checker_regressed prev_checker_status current_checker_status = true <->
  (prev_checker_status = Some "SUCCESS" \/ prev_checker_status = Some "RECOVERING")
  /\ (current_checker_status = Some "OFFLINE" \/ current_checker_status = Some "MUMBLE").
Proof.
  unfold checker_regressed.
  rewrite andb_true_iff, !orb_true_iff, !bool_decide_eq_true. reflexivity.
Qed.

Lemma down_message_contains (services : pydict ServiceInfo) (faulty : list string)
    (name : string) (info : ServiceInfo) :
  dict_get services name = Some info -> name ∈ faulty ->
  exists msg,
    msg ∈ down_messages services faulty
    /\ contains msg
         (down_text name
            (if decide (default "OFFLINE"%string (checker info) = "OFFLINE"%string)
             then "offline" else "mumble")).
Proof.
  intros Hget Hin. destruct faulty as [|first others]; [inversion Hin|].
  eexists. split; [left|].
  apply contains_app_l, contains_concat, list_elem_of_join.
  eexists. split; [|apply list_elem_of_fmap; exists name; split; [reflexivity | exact Hin]].
  rewrite (down_lines_eq services name info Hget). left.
Qed.

(** The line of a drop from a delta of 20 to a delta of 5. *)
Lemma sample_issue_text (label name : string) :
  contains (issue_text label name ((5 - 20) / abs 20 * 100) 20 5) "+20.00->+5.00"
  /\ contains (issue_text label name ((5 - 20) / abs 20 * 100) 20 5) "75.00%".
Proof.
  unfold issue_text. split.
  - do 9 apply contains_app_r.
    exists EmptyString, ")"%string. reflexivity.
  - do 7 apply contains_app_r.
    exists EmptyString, " change (+20.00->+5.00)"%string. reflexivity.
Qed.

Lemma sample_issue_lines (label : string) (delta_of : DeltaRecord -> option float)
    (state_score : ServiceState -> float) (score : ServiceInfo -> float)
    (lss : gmap string ServiceState) (snap : gmap string DeltaRecord)
    (services : pydict ServiceInfo) (name : string) (info : ServiceInfo)
    (prev_state : ServiceState) :
  dict_get services name = Some info ->
  lss !! name = Some prev_state ->
  snap !! name ≫= delta_of = Some 20 ->
  score info - state_score prev_state = 5 ->
  issue_lines label delta_of state_score score lss snap services name =
  [issue_text label name ((5 - 20) / abs 20 * 100) 20 5].
Proof.
  intros Hget Hprev Hpd Hcur.
  rewrite (issue_lines_eq _ _ _ _ _ _ _ name info prev_state 20 Hget Hprev Hpd eq_refl).
  rewrite Hcur. reflexivity.
Qed.

Lemma sample_dropped (current_score prev_score : float) :
  current_score - prev_score = 5 ->
  dropped default_config (score_delta current_score (Some prev_score)) (Some 20) = true.
Proof. intros Hcur. simpl. rewrite Hcur. reflexivity. Qed.

(** ** Repeated polls *)

Lemma iteration_skipped (cfg : Config) (st : MonitorState)
    (team_data : option (pydict (pydict ServiceInfo))) :
  poll_tick team_data = None -> monitor_iteration cfg st team_data = Ok (st, []).
Proof.
  destruct team_data as [[|[tick [|item items]] rest]|]; try reflexivity.
  discriminate.
Qed.

Lemma iteration_of_tick (cfg : Config) (st : MonitorState) (tick : string)
    (team_data : option (pydict (pydict ServiceInfo))) :
  poll_tick team_data = Some tick -> last_tick st = Some tick ->
  exists services,
    services <> []
    /\ monitor_iteration cfg st team_data = Ok (after_repeated_poll st services, []).
Proof.
  destruct team_data as [[|[tick' [|item items]] rest]|]; try discriminate.
  intros [= ->] Htick. exists (item :: items). split; [discriminate|].
  apply iteration_repeated_poll; [discriminate | exact Htick].
Qed.

Lemma repeated_polls_keep_deltas (cfg : Config) (tick : string)
    (fetched : list (option (pydict (pydict ServiceInfo)))) (st : MonitorState) :
  last_tick st = Some tick -> repeated_polls tick fetched ->
  exists st',
    monitor_services cfg st fetched = Ok (st', [])
    /\ prev_deltas st' = prev_deltas st
    /\ last_tick st' = Some tick.
Proof.
  intros Htick Hrep. revert st Htick.
  induction Hrep as [|team_data rest [Hskip|Hsame] _ IH]; intros st Htick.
  - exists st. auto.
  - destruct (IH st Htick) as (st' & Hrest & Hdeltas & Hlast). exists st'.
    rewrite monitor_services_cons, (iteration_skipped cfg st team_data Hskip), bind_ret.
    cbn [fst snd]. rewrite Hrest. auto.
  - destruct (iteration_of_tick cfg st tick team_data Hsame Htick)
      as (services & _ & Hrun).
    destruct (IH (after_repeated_poll st services) Htick)
      as (st' & Hrest & Hdeltas & Hlast).
    exists st'. rewrite monitor_services_cons, Hrun, bind_ret.
    cbn [fst snd]. rewrite Hrest. auto.
Qed.

(** * The claims *)

(** C1 (fails on the code).  The first poll of a tick ["1"] with one service
    ["web"], from the initial state: the turn ends with [last_tick] set to
    ["1"], as claimed, but with an empty [last_service_states], although the
    states built from the payload (the dict that the repeated-poll branch
    fills) have an entry for ["web"]. *)
Theorem C1_new_tick_stores_no_states :
  exists st' msgs,
    monitor_iteration default_config initial_state
      (sample_poll "1" [("web", sample_service "SUCCESS" 10 5)]) = Ok (st', msgs)
    /\ last_tick st' = Some "1"
    /\ current_states [("web", sample_service "SUCCESS" 10 5)] !! "web"
       = Some (service_state (sample_service "SUCCESS" 10 5))
    /\ last_service_states st' !! "web" = None.
Proof.
  eexists _, _. split; [apply iteration_new_tick; discriminate|].
  split; [reflexivity|]. split.
  - apply lookup_insert_eq.
  - apply lookup_empty.
Qed.

(** C2, as stated, fails: the second poll of tick ["1"] replaces the stored
    service states, here the empty mapping left by the first poll, by the
    states of its payload. *)
Lemma C2_repeated_poll_replaces_states :
  exists st1 msgs1 st2 msgs2,
    monitor_iteration default_config initial_state
      (sample_poll "1" [("web", sample_service "SUCCESS" 10 5)]) = Ok (st1, msgs1)
    /\ last_tick st1 = Some "1"
    /\ monitor_iteration default_config st1
         (sample_poll "1" [("web", sample_service "SUCCESS" 10 5)]) = Ok (st2, msgs2)
    /\ last_service_states st1 !! "web" = None
    /\ last_service_states st2 !! "web"
       = Some (service_state (sample_service "SUCCESS" 10 5))
    /\ last_service_states st2 <> last_service_states st1.
Proof.
  eexists _, _, _, _. split; [apply iteration_new_tick; discriminate|].
  split; [reflexivity|].
  split; [apply iteration_repeated_poll; [discriminate | reflexivity]|].
  split; [apply lookup_empty|].
  split; [apply lookup_insert_eq|].
  intros Heq. apply (f_equal (fun m => m !! "web")) in Heq.
  simpl in Heq. unfold current_states in Heq. simpl in Heq.
  rewrite lookup_insert_eq, lookup_empty in Heq. discriminate.
Qed.

(** C2, amended.  A poll whose tick is the last processed one and that has
    services leaves [prev_deltas] and [last_tick] as they were and sends no
    message, whatever its payload; [last_service_states] becomes the states
    built from that payload. *)
Theorem C2_repeated_poll (cfg : Config) (st : MonitorState) (tick : string)
    (services : pydict ServiceInfo) (rest : pydict (pydict ServiceInfo)) :
  services <> [] -> last_tick st = Some tick ->
  exists st' msgs,
    monitor_iteration cfg st (Some ((tick, services) :: rest)) = Ok (st', msgs)
    /\ prev_deltas st' = prev_deltas st
    /\ last_tick st' = last_tick st
    /\ msgs = []
    /\ last_service_states st' = current_states services.
Proof.
  intros Hne Htick. eexists _, _.
  split; [apply iteration_repeated_poll; assumption|]. auto.
Qed.

Lemma C2_repeated_poll_witness :
  exists st' msgs,
    monitor_iteration default_config
      {| last_service_states := ∅; prev_deltas := ∅; last_tick := Some "1" |}
      (Some [("1", [("web", sample_service "MUMBLE" 3 4)])]) = Ok (st', msgs)
    /\ prev_deltas st' = ∅
    /\ last_tick st' = Some "1"
    /\ msgs = []
    /\ last_service_states st' = current_states [("web", sample_service "MUMBLE" 3 4)].
Proof.
  apply (C2_repeated_poll default_config
           {| last_service_states := ∅; prev_deltas := ∅; last_tick := Some "1" |}
           "1" [("web", sample_service "MUMBLE" 3 4)] []).
  - discriminate.
  - reflexivity.
Defined.

(** C3.  In a tick that is processed, a service of the payload is put on the
    attack (defense) issue list exactly when its previous and current attack
    (defense) deltas qualify in the sense of [spec_regression]; the drop
    alert then has one line for every entry of the two lists. *)
Theorem C3_regression_alert_iff (cfg : Config) (st : MonitorState)
    (services : pydict ServiceInfo) (name : string) (info : ServiceInfo) :
  NoDup (keys services) -> (name, info) ∈ services ->
  exists acc lines,
    process_tick cfg st services = Ok acc
    /\ (name ∈ attack_issue_services acc <->
        spec_regression cfg (prev_deltas st !! name ≫= attack_delta)
          (score_delta (attack_score info)
             (state_attack <$> last_service_states st !! name)))
    /\ (name ∈ defense_issue_services acc <->
        spec_regression cfg (prev_deltas st !! name ≫= defense_delta)
          (score_delta (defense_score info)
             (state_defense <$> last_service_states st !! name)))
    /\ drop_alert (last_service_states st) (prev_deltas st) services
         (attack_issue_services acc) (defense_issue_services acc)
       = Ok (alert_message lines)
    /\ length lines
       = (length (attack_issue_services acc)
          + length (defense_issue_services acc))%nat.
Proof.
  intros Hnd Hin. eexists _, _. split; [apply process_tick_ok|].
  cbn [attack_issue_services defense_issue_services].
  split; [|split; [|split]].
  - rewrite (flagged_unique _ _ _ info Hnd Hin). apply dropped_spec.
  - rewrite (flagged_unique _ _ _ info Hnd Hin). apply dropped_spec.
  - apply drop_alert_ok; intros name'; apply flagged_keys.
  - apply drop_lines_length.
Qed.

Lemma C3_regression_alert_iff_witness :
  exists acc lines,
    process_tick default_config sample_state
      [("web", sample_service "SUCCESS" 105 50)] = Ok acc
    /\ ("web" ∈ attack_issue_services acc <->
        spec_regression default_config
          (prev_deltas sample_state !! "web" ≫= attack_delta)
          (score_delta (attack_score (sample_service "SUCCESS" 105 50))
             (state_attack <$> last_service_states sample_state !! "web")))
    /\ ("web" ∈ defense_issue_services acc <->
        spec_regression default_config
          (prev_deltas sample_state !! "web" ≫= defense_delta)
          (score_delta (defense_score (sample_service "SUCCESS" 105 50))
             (state_defense <$> last_service_states sample_state !! "web")))
    /\ drop_alert (last_service_states sample_state) (prev_deltas sample_state)
         [("web", sample_service "SUCCESS" 105 50)]
         (attack_issue_services acc) (defense_issue_services acc)
       = Ok (alert_message lines)
    /\ length lines
       = (length (attack_issue_services acc)
          + length (defense_issue_services acc))%nat.
Proof.
  apply (C3_regression_alert_iff default_config sample_state
           [("web", sample_service "SUCCESS" 105 50)] "web"
           (sample_service "SUCCESS" 105 50)).
  - simpl. apply NoDup_singleton.
  - left.
Defined.

(** C4.  A previous delta that is zero keeps the service off the issue list
    of its kind, whatever the current delta is, and no turn of the loop
    raises: the divisions, which raise [ZeroDivisionError] on a zero divisor,
    are never reached with one. *)
Theorem C4_zero_previous_delta (cfg : Config) (st : MonitorState)
    (services : pydict ServiceInfo) (name : string) (pd : float) :
  (pd =? 0) = true ->
  exists acc,
    process_tick cfg st services = Ok acc
    /\ (prev_deltas st !! name ≫= attack_delta = Some pd ->
        name ∉ attack_issue_services acc)
    /\ (prev_deltas st !! name ≫= defense_delta = Some pd ->
        name ∉ defense_issue_services acc)
    /\ (forall team_data,
          exists st' msgs, monitor_iteration cfg st team_data = Ok (st', msgs)).
Proof.
  intros Hz. eexists. split; [apply process_tick_ok|].
  cbn [attack_issue_services defense_issue_services].
  split; [|split].
  - intros Hpd Hin. apply elem_of_flagged in Hin as (info & _ & Hdrop).
    unfold attack_dropped in Hdrop. cbn [fst] in Hdrop.
    rewrite Hpd, (dropped_zero cfg _ pd Hz) in Hdrop. discriminate.
  - intros Hpd Hin. apply elem_of_flagged in Hin as (info & _ & Hdrop).
    unfold defense_dropped in Hdrop. cbn [fst] in Hdrop.
    rewrite Hpd, (dropped_zero cfg _ pd Hz) in Hdrop. discriminate.
  - intros team_data. apply iteration_total.
Qed.

Lemma C4_zero_previous_delta_witness :
  exists acc,
    process_tick default_config sample_state
      [("web", sample_service "SUCCESS" 105 20)] = Ok acc
    /\ "web" ∉ defense_issue_services acc.
Proof.
  destruct (C4_zero_previous_delta default_config sample_state
              [("web", sample_service "SUCCESS" 105 20)] "web" 0 eq_refl)
    as (acc & Hacc & _ & Hdefense & _).
  exists acc. split; [exact Hacc|]. apply Hdefense.
  unfold sample_state. cbn [prev_deltas]. rewrite lookup_singleton_eq. reflexivity.
Defined.

(** C5, as stated, fails.  ["web"] gets an attack delta of 100 at tick ["2"];
    tick ["3"] is processed without ["web"], which a later poll of tick ["3"]
    shows again; at tick ["4"] the delta of ["web"] is compared with the
    record of tick ["2"], which the store still holds, and not with a record
    of the tick before, and ["web"] is put on the attack issue list. *)
Lemma C5_stale_delta_compared :
  exists st3 msgs3 st4 msgs4 st5 msgs5 acc,
    monitor_services default_config initial_state
      [sample_poll "1" [("web", sample_service "SUCCESS" 0 0)];
       sample_poll "1" [("web", sample_service "SUCCESS" 0 0)];
       sample_poll "2" [("web", sample_service "SUCCESS" 100 0)]] = Ok (st3, msgs3)
    /\ prev_deltas st3 !! "web"
       = Some {| attack_delta := Some 100; defense_delta := Some 0 |}
    /\ last_tick st3 = Some "2"
    /\ monitor_iteration default_config st3
         (sample_poll "3" [("db", sample_service "SUCCESS" 5 5)]) = Ok (st4, msgs4)
    /\ dict_get [("db", sample_service "SUCCESS" 5 5)] "web" = None
    /\ last_tick st4 = Some "3"
    /\ monitor_iteration default_config st4
         (sample_poll "3" [("web", sample_service "SUCCESS" 100 0);
                           ("db", sample_service "SUCCESS" 5 5)]) = Ok (st5, msgs5)
    /\ last_tick st5 = Some "3"
    /\ process_tick default_config st5
         [("web", sample_service "SUCCESS" 110 0);
          ("db", sample_service "SUCCESS" 5 5)] = Ok acc
    /\ prev_deltas st5 !! "web"
       = Some {| attack_delta := Some 100; defense_delta := Some 0 |}
    /\ attack_issue_services acc = ["web"].
Proof.
  eexists _, _, _, _, _, _, _.
  split; [vm_compute; reflexivity|].
  split; [vm_compute; reflexivity|].
  split; [vm_compute; reflexivity|].
  split; [vm_compute; reflexivity|].
  split; [vm_compute; reflexivity|].
  split; [vm_compute; reflexivity|].
  split; [vm_compute; reflexivity|].
  split; [vm_compute; reflexivity|].
  split; [vm_compute; reflexivity|].
  split; vm_compute; reflexivity.
Qed.

(** C5, amended.  Take a tick [tick0] that is processed, the repeated polls
    that follow it, and the next tick [tick1].  For a service of the payload
    of [tick1], the record that the store holds before [tick1] overwrites it
    is the one computed at [tick0] when the service was in the payload of
    [tick0], and otherwise the older entry that [tick0] left in place; the
    issue lists of [tick1] are decided against that record, and the record
    computed at [tick1] is only stored for the tick after. *)
Theorem C5_previous_delta_source (cfg : Config) (st0 : MonitorState)
    (tick0 : string) (services0 : pydict ServiceInfo)
    (rest0 : pydict (pydict ServiceInfo))
    (repeats : list (option (pydict (pydict ServiceInfo))))
    (services1 : pydict ServiceInfo) (name : string) (info1 : ServiceInfo) :
  services0 <> [] -> last_tick st0 <> Some tick0 -> NoDup (keys services0) ->
  repeated_polls tick0 repeats ->
  NoDup (keys services1) -> (name, info1) ∈ services1 ->
  exists st1 msgs1 st2 acc,
    monitor_iteration cfg st0 (Some ((tick0, services0) :: rest0)) = Ok (st1, msgs1)
    /\ monitor_services cfg st1 repeats = Ok (st2, [])
    /\ process_tick cfg st2 services1 = Ok acc
    /\ prev_deltas st2 !! name
       = match dict_get services0 name with
         | Some info0 => Some (service_deltas (last_service_states st0) (name, info0))
         | None => prev_deltas st0 !! name
         end
    /\ (name ∈ attack_issue_services acc <->
        spec_regression cfg (prev_deltas st2 !! name ≫= attack_delta)
          (attack_delta (service_deltas (last_service_states st2) (name, info1))))
    /\ (name ∈ defense_issue_services acc <->
        spec_regression cfg (prev_deltas st2 !! name ≫= defense_delta)
          (defense_delta (service_deltas (last_service_states st2) (name, info1))))
    /\ acc_prev_deltas acc !! name
       = Some (service_deltas (last_service_states st2) (name, info1)).
Proof.
  intros Hne0 Htick0 Hnd0 Hrep Hnd1 Hin1.
  destruct (repeated_polls_keep_deltas cfg tick0 repeats
              (after_new_tick st0 tick0 services0) eq_refl Hrep)
    as (st2 & Hrun & Hdeltas & Hlast).
  exists (after_new_tick st0 tick0 services0), (tick_alerts cfg st0 services0), st2.
  eexists. split; [apply iteration_new_tick; assumption|].
  split; [exact Hrun|]. split; [apply process_tick_ok|].
  cbn [attack_issue_services defense_issue_services acc_prev_deltas].
  split; [|split; [|split]].
  - rewrite Hdeltas. cbn [prev_deltas after_new_tick].
    destruct (dict_get services0 name) as [info0|] eqn:Hget.
    + apply record_deltas_present; [exact Hnd0 | apply dict_get_Some_elem, Hget].
    + apply record_deltas_absent. intros Hkey.
      destruct (dict_get_is_Some services0 name Hkey) as [info0 Hsome]. congruence.
  - rewrite (flagged_unique _ _ _ info1 Hnd1 Hin1). apply dropped_spec.
  - rewrite (flagged_unique _ _ _ info1 Hnd1 Hin1). apply dropped_spec.
  - apply record_deltas_present; assumption.
Qed.

Lemma C5_previous_delta_source_witness :
  exists st2 acc,
    process_tick default_config st2 [("web", sample_service "SUCCESS" 106 50)] = Ok acc
    /\ prev_deltas st2 !! "web"
       = Some (service_deltas (last_service_states sample_state)
                 ("web", sample_service "SUCCESS" 105 50))
    /\ acc_prev_deltas acc !! "web"
       = Some (service_deltas (last_service_states st2)
                 ("web", sample_service "SUCCESS" 106 50)).
Proof.
  destruct (C5_previous_delta_source default_config sample_state "2"
              [("web", sample_service "SUCCESS" 105 50)] []
              [sample_poll "2" [("web", sample_service "SUCCESS" 105 50)]]
              [("web", sample_service "SUCCESS" 106 50)] "web"
              (sample_service "SUCCESS" 106 50))
    as (st1 & msgs1 & st2 & acc & _ & _ & Hacc & Hprev & _ & _ & Hnext).
  - discriminate.
  - simpl. discriminate.
  - simpl. apply NoDup_singleton.
  - constructor; [right; reflexivity | constructor].
  - simpl. apply NoDup_singleton.
  - left.
  - exists st2, acc. split; [exact Hacc|]. split; [exact Hprev | exact Hnext].
Defined.

(** C6.  In a tick that is processed, a service with a stored state is put
    on the faulty list exactly when the stored checker status is SUCCESS or
    RECOVERING and the current one is OFFLINE or MUMBLE; the turn then sends
    a message with the line of the service, the name between backquotes,
    [ is ] and between backquotes [offline] for OFFLINE and [mumble]
    otherwise; OFFLINE after OFFLINE flags nothing. *)
Theorem C6_checker_regression (cfg : Config) (st : MonitorState) (tick : string)
    (services : pydict ServiceInfo) (rest : pydict (pydict ServiceInfo))
    (name : string) (info : ServiceInfo) (prev_state : ServiceState) :
  last_tick st <> Some tick ->
  NoDup (keys services) -> (name, info) ∈ services ->
  last_service_states st !! name = Some prev_state ->
  exists acc st' msgs,
    process_tick cfg st services = Ok acc
    /\ monitor_iteration cfg st (Some ((tick, services) :: rest)) = Ok (st', msgs)
    /\ (name ∈ faulty_services acc <->
        (state_checker prev_state = Some "SUCCESS"
         \/ state_checker prev_state = Some "RECOVERING")
        /\ (checker info = Some "OFFLINE" \/ checker info = Some "MUMBLE"))
    /\ (name ∈ faulty_services acc ->
        exists msg,
          msg ∈ msgs
          /\ contains msg
               ("`" +:+ name +:+ "` is `"
                +:+ (if decide (checker info = Some "OFFLINE")
                     then "offline" else "mumble")
                +:+ "`"))
    /\ (state_checker prev_state = Some "OFFLINE" ->
        checker info = Some "OFFLINE" -> name ∉ faulty_services acc).
Proof.
  intros Htick Hnd Hin Hprev.
  assert (Hflag : name ∈ flagged (checker_issue (last_service_states st)) services <->
                  (state_checker prev_state = Some "SUCCESS"
                   \/ state_checker prev_state = Some "RECOVERING")
                  /\ (checker info = Some "OFFLINE" \/ checker info = Some "MUMBLE")).
  { rewrite (flagged_unique _ _ _ info Hnd Hin). unfold checker_issue.
    cbn [fst snd]. rewrite Hprev. apply checker_regressed_spec. }
  eexists _, _, _. split; [apply process_tick_ok|].
  split; [apply iteration_new_tick; [intros ->; inversion Hin | exact Htick]|].
  cbn [faulty_services]. split; [exact Hflag|]. split.
  - intros Hfaulty.
    destruct (down_message_contains services _ name info
                (dict_get_unique services name info Hnd Hin) Hfaulty)
      as (msg & Hmsg & Hcontains).
    exists msg. split; [apply elem_of_app; left; exact Hmsg|].
    apply Hflag in Hfaulty as [_ [Hcur|Hcur]]; rewrite Hcur in Hcontains |- *;
      exact Hcontains.
  - intros Hoff _ Hfaulty. apply Hflag in Hfaulty as [[Hp|Hp] _]; congruence.
Qed.

Lemma C6_checker_regression_witness :
  exists msg,
    contains msg "`web` is `offline`"
    /\ exists st' msgs,
         monitor_iteration default_config sample_state
           (Some [("2", [("web", sample_service "OFFLINE" 105 50)])]) = Ok (st', msgs)
         /\ msg ∈ msgs.
Proof.
  destruct (C6_checker_regression default_config sample_state "2"
              [("web", sample_service "OFFLINE" 105 50)] [] "web"
              (sample_service "OFFLINE" 105 50)
              {| state_checker := Some "SUCCESS";
                 state_attack := 100; state_defense := 50 |})
    as (acc & st' & msgs & _ & Hrun & Hiff & Hline & _).
  - simpl. discriminate.
  - simpl. apply NoDup_singleton.
  - left.
  - apply lookup_singleton_eq.
  - destruct Hline as (msg & Hmsg & Hcontains).
    + apply Hiff. split; [left | left]; reflexivity.
    + exists msg. split; [exact Hcontains|]. exists st', msgs. auto.
Defined.

(** C7.  Under the default thresholds 0.5 and 10.0, a service whose previous
    attack (defense) delta is 20.0 and whose current one is 5.0 is put on the
    attack (defense) issue list of the tick, and the turn sends a message
    that contains both [+20.00->+5.00] and [75.00%]. *)
Theorem C7_sample_regression_message (st : MonitorState) (tick : string)
    (services : pydict ServiceInfo) (rest : pydict (pydict ServiceInfo))
    (name : string) (info : ServiceInfo) (prev_state : ServiceState) :
  last_tick st <> Some tick ->
  NoDup (keys services) -> (name, info) ∈ services ->
  last_service_states st !! name = Some prev_state ->
  exists acc st' msgs,
    process_tick default_config st services = Ok acc
    /\ monitor_iteration default_config st (Some ((tick, services) :: rest))
       = Ok (st', msgs)
    /\ (prev_deltas st !! name ≫= attack_delta = Some 20 ->
        attack_score info - state_attack prev_state = 5 ->
        name ∈ attack_issue_services acc
        /\ exists msg,
             msg ∈ msgs /\ contains msg "+20.00->+5.00" /\ contains msg "75.00%")
    /\ (prev_deltas st !! name ≫= defense_delta = Some 20 ->
        defense_score info - state_defense prev_state = 5 ->
        name ∈ defense_issue_services acc
        /\ exists msg,
             msg ∈ msgs /\ contains msg "+20.00->+5.00" /\ contains msg "75.00%").
Proof.
  intros Htick Hnd Hin Hprev.
  pose proof (dict_get_unique services name info Hnd Hin) as Hget.
  eexists _, _, _. split; [apply process_tick_ok|].
  split; [apply iteration_new_tick; [intros ->; inversion Hin | exact Htick]|].
  cbn [attack_issue_services defense_issue_services]. split.
  - intros Hpd Hcur.
    assert (Hflag : name ∈ flagged (attack_dropped default_config st) services).
    { apply (flagged_unique _ _ _ info Hnd Hin).
      unfold attack_dropped, service_deltas. cbn [fst snd attack_delta].
      rewrite Hprev, Hpd. apply sample_dropped, Hcur. }
    split; [exact Hflag|].
    destruct (alert_message_contains
                (drop_lines (last_service_states st) (prev_deltas st) services
                   (flagged (attack_dropped default_config st) services)
                   (flagged (defense_dropped default_config st) services))
                (issue_text "ATTACK" name ((5 - 20) / abs 20 * 100) 20 5))
      as (msg & Hmsg & Hcontains).
    { apply elem_of_app. left. apply list_elem_of_join. eexists. split; [left|].
      apply list_elem_of_fmap. exists name. split; [|exact Hflag].
      symmetry. apply (sample_issue_lines _ _ _ _ _ _ _ _ info prev_state); assumption. }
    exists msg. split.
    { unfold tick_alerts. apply elem_of_app. right. rewrite Hmsg. left. }
    split; (eapply contains_trans; [exact Hcontains | apply sample_issue_text]).
  - intros Hpd Hcur.
    assert (Hflag : name ∈ flagged (defense_dropped default_config st) services).
    { apply (flagged_unique _ _ _ info Hnd Hin).
      unfold defense_dropped, service_deltas. cbn [fst snd defense_delta].
      rewrite Hprev, Hpd. apply sample_dropped, Hcur. }
    split; [exact Hflag|].
    destruct (alert_message_contains
                (drop_lines (last_service_states st) (prev_deltas st) services
                   (flagged (attack_dropped default_config st) services)
                   (flagged (defense_dropped default_config st) services))
                (issue_text "DEFENSE" name ((5 - 20) / abs 20 * 100) 20 5))
      as (msg & Hmsg & Hcontains).
    { apply elem_of_app. right. apply list_elem_of_join. eexists. split; [left|].
      apply list_elem_of_fmap. exists name. split; [|exact Hflag].
      symmetry. apply (sample_issue_lines _ _ _ _ _ _ _ _ info prev_state); assumption. }
    exists msg. split.
    { unfold tick_alerts. apply elem_of_app. right. rewrite Hmsg. left. }
    split; (eapply contains_trans; [exact Hcontains | apply sample_issue_text]).
Qed.

Lemma C7_sample_regression_message_witness :
  exists st' msgs msg,
    monitor_iteration default_config sample_state
      (Some [("2", [("web", sample_service "SUCCESS" 105 50)])]) = Ok (st', msgs)
    /\ msg ∈ msgs /\ contains msg "+20.00->+5.00" /\ contains msg "75.00%".
Proof.
  destruct (C7_sample_regression_message sample_state "2"
              [("web", sample_service "SUCCESS" 105 50)] [] "web"
              (sample_service "SUCCESS" 105 50)
              {| state_checker := Some "SUCCESS";
                 state_attack := 100; state_defense := 50 |})
    as (acc & st' & msgs & _ & Hrun & Hattack & _).
  - simpl. discriminate.
  - simpl. apply NoDup_singleton.
  - left.
  - apply lookup_singleton_eq.
  - destruct Hattack as (_ & msg & Hmsg & Harrow & Hpercent).
    + unfold sample_state. cbn [prev_deltas]. rewrite lookup_singleton_eq. reflexivity.
    + reflexivity.
    + exists st', msgs, msg. auto.
Defined.

(** C8, as stated, fails: ["web"] is polled twice at tick ["1"], so that its
    state is stored; tick ["2"] comes without ["web"], and afterwards the
    stored states have no entry for ["web"]. *)
Lemma C8_absent_service_state_dropped :
  exists st2 msgs2 st3 msgs3,
    monitor_services default_config initial_state
      [sample_poll "1" [("web", sample_service "SUCCESS" 10 5)];
       sample_poll "1" [("web", sample_service "SUCCESS" 10 5)]] = Ok (st2, msgs2)
    /\ last_service_states st2 !! "web"
       = Some (service_state (sample_service "SUCCESS" 10 5))
    /\ last_tick st2 <> Some "2"
    /\ monitor_iteration default_config st2
         (sample_poll "2" [("db", sample_service "SUCCESS" 1 1)]) = Ok (st3, msgs3)
    /\ last_service_states st3 !! "web" = None.
Proof.
  eexists _, _, _, _. split.
  - unfold sample_poll. rewrite !monitor_services_cons.
    rewrite iteration_new_tick by discriminate. rewrite bind_ret. cbn [fst snd].
    rewrite monitor_services_cons.
    rewrite iteration_repeated_poll by (discriminate || reflexivity).
    reflexivity.
  - split; [apply lookup_insert_eq|]. split; [discriminate|].
    split; [apply iteration_new_tick; discriminate|]. apply lookup_empty.
Qed.

(** C8, amended.  After a tick that is processed, the stored states have no
    entry for a service that is absent from the tick's services: the mapping
    is replaced as a whole, a prior entry is not kept. *)
Theorem C8_absent_service_has_no_state (cfg : Config) (st : MonitorState)
    (tick : string) (services : pydict ServiceInfo)
    (rest : pydict (pydict ServiceInfo)) (name : string) :
  services <> [] -> last_tick st <> Some tick -> name ∉ keys services ->
  exists st' msgs,
    monitor_iteration cfg st (Some ((tick, services) :: rest)) = Ok (st', msgs)
    /\ last_service_states st' !! name = None.
Proof.
  intros Hne Htick Hnot. eexists _, _.
  split; [apply iteration_new_tick; assumption|]. apply lookup_empty.
Qed.

Lemma C8_absent_service_has_no_state_witness :
  exists st' msgs,
    monitor_iteration default_config
      {| last_service_states := {["web" := service_state (sample_service "SUCCESS" 10 5)]};
         prev_deltas := ∅; last_tick := Some "1" |}
      (Some [("2", [("db", sample_service "SUCCESS" 1 1)])]) = Ok (st', msgs)
    /\ last_service_states st' !! "web" = None.
Proof.
  apply (C8_absent_service_has_no_state default_config
           {| last_service_states :=
                {["web" := service_state (sample_service "SUCCESS" 10 5)]};
              prev_deltas := ∅; last_tick := Some "1" |}
           "2" [("db", sample_service "SUCCESS" 1 1)] [] "web").
  - discriminate.
  - simpl. discriminate.
  - simpl. intros Hin. apply list_elem_of_singleton in Hin. discriminate.
Defined.

(** C9.  Two runs of the loop from the initial state that fetch the same
    sequence of payloads, whatever fetches fail in between, send the same
    sequence of messages and end in the same state.  The tick identifiers
    need not be distinct. *)
Theorem C9_replay_same_alerts (cfg : Config)
    (run1 run2 : list (option (pydict (pydict ServiceInfo)))) :
  omap id run1 = omap id run2 ->
  exists st msgs,
    monitor_services cfg initial_state run1 = Ok (st, msgs)
    /\ monitor_services cfg initial_state run2 = Ok (st, msgs).
Proof.
  intros Hsame.
  destruct (monitor_services_total cfg run1 initial_state) as (st & msgs & Hrun).
  exists st, msgs. split; [exact Hrun|].
  rewrite monitor_services_payloads, <- Hsame, <- monitor_services_payloads.
  exact Hrun.
Qed.

Lemma C9_replay_same_alerts_witness :
  exists st msgs,
    monitor_services default_config initial_state
      [sample_poll "1" [("web", sample_service "SUCCESS" 10 5)]; None;
       sample_poll "2" [("web", sample_service "OFFLINE" 10 5)]] = Ok (st, msgs)
    /\ monitor_services default_config initial_state
      [None; sample_poll "1" [("web", sample_service "SUCCESS" 10 5)];
       sample_poll "2" [("web", sample_service "OFFLINE" 10 5)]] = Ok (st, msgs).
Proof.
  apply (C9_replay_same_alerts default_config
           [sample_poll "1" [("web", sample_service "SUCCESS" 10 5)]; None;
            sample_poll "2" [("web", sample_service "OFFLINE" 10 5)]]
           [None; sample_poll "1" [("web", sample_service "SUCCESS" 10 5)];
            sample_poll "2" [("web", sample_service "OFFLINE" 10 5)]]).
  reflexivity.
Defined.

(** C10.  A tick that is processed leaves the delta record of every service
    that is absent from its services as it was: [prev_deltas] is written at
    the names of the payload only. *)
Theorem C10_delta_store_frame (cfg : Config) (st : MonitorState)
    (tick : string) (services : pydict ServiceInfo)
    (rest : pydict (pydict ServiceInfo)) (name : string) :
  services <> [] -> last_tick st <> Some tick -> name ∉ keys services ->
  exists st' msgs,
    monitor_iteration cfg st (Some ((tick, services) :: rest)) = Ok (st', msgs)
    /\ prev_deltas st' !! name = prev_deltas st !! name.
Proof.
  intros Hne Htick Hnot. eexists _, _.
  split; [apply iteration_new_tick; assumption|].
  apply record_deltas_absent, Hnot.
Qed.

Lemma C10_delta_store_frame_witness :
  exists st' msgs,
    monitor_iteration default_config sample_state
      (Some [("2", [("db", sample_service "SUCCESS" 1 1)])]) = Ok (st', msgs)
    /\ prev_deltas st' !! "web" = prev_deltas sample_state !! "web".
Proof.
  apply (C10_delta_store_frame default_config sample_state
           "2" [("db", sample_service "SUCCESS" 1 1)] [] "web").
  - discriminate.
  - simpl. discriminate.
  - simpl. intros Hin. apply list_elem_of_singleton in Hin. discriminate.
Defined.

(** * Further properties of the loop *)

(** ** Polls that bring nothing *)

Lemma poll_tick_Some (team_data : option (pydict (pydict ServiceInfo))) (tick : string) :
  poll_tick team_data = Some tick ->
  exists services rest,
    services <> [] /\ team_data = Some ((tick, services) :: rest)
    /\ useful_part team_data = Some (Some [(tick, services)]).
Proof.
  destruct team_data as [[|[tick' [|item items]] rest]|]; try discriminate.
  intros [= ->]. exists (item :: items), rest. split; [discriminate|]. auto.
Qed.

Lemma poll_tick_None (team_data : option (pydict (pydict ServiceInfo))) :
  poll_tick team_data = None -> useful_part team_data = None.
Proof.
  destruct team_data as [[|[tick' [|item items]] rest]|]; try reflexivity.
  discriminate.
Qed.

Lemma iteration_first_key (cfg : Config) (st : MonitorState) (tick : string)
    (services : pydict ServiceInfo) (rest : pydict (pydict ServiceInfo)) :
  monitor_iteration cfg st (Some ((tick, services) :: rest)) =
  monitor_iteration cfg st (Some [(tick, services)]).
Proof. reflexivity. Qed.

(** X1.  A run sends the same messages and ends in the same state as the
    run over its useful polls: failed fetches, empty documents and documents
    whose first tick has no services are dropped, and of every other
    document only the first key and its services are kept. *)
Theorem X1_useless_polls_invisible (cfg : Config)
    (fetched : list (option (pydict (pydict ServiceInfo)))) (st : MonitorState) :
  monitor_services cfg st fetched = monitor_services cfg st (useful_polls fetched).
Proof.
  revert st. induction fetched as [|team_data rest IH]; intros st; [reflexivity|].
  unfold useful_polls. cbn [omap list_omap].
  destruct (poll_tick team_data) as [tick|] eqn:Htick.
  - destruct (poll_tick_Some team_data tick Htick)
      as (services & rest' & _ & -> & Huseful).
    rewrite Huseful, !monitor_services_cons, iteration_first_key.
    destruct (monitor_iteration cfg st (Some [(tick, services)])) as [[st' msgs]|e];
      [|reflexivity].
    rewrite !bind_ret. cbn [fst snd]. fold (useful_polls rest). rewrite IH. reflexivity.
  - rewrite (poll_tick_None team_data Htick), monitor_services_cons.
    rewrite (iteration_skipped cfg st team_data Htick), bind_ret. cbn [fst snd].
    fold (useful_polls rest). rewrite IH.
    destruct (monitor_services cfg st (useful_polls rest)) as [[st' msgs]|e]; reflexivity.
Qed.

(** ** Ticks without a stored baseline *)

Lemma flagged_none (test : string * ServiceInfo -> bool) (services : pydict ServiceInfo) :
  (forall item, item ∈ services -> test item = false) -> flagged test services = [].
Proof.
  induction services as [|item rest IH]; intros Hnone; [reflexivity|].
  rewrite flagged_cons, (Hnone item) by left. simpl. apply IH.
  intros item' Hin. apply Hnone. right. exact Hin.
Qed.

Lemma elem_keys (services : pydict ServiceInfo) (item : string * ServiceInfo) :
  item ∈ services -> item.1 ∈ keys services.
Proof. intros Hin. apply elem_of_keys. exists item.2. destruct item. exact Hin. Qed.

Lemma service_deltas_unknown (lss : gmap string ServiceState)
    (item : string * ServiceInfo) :
  lss !! item.1 = None -> service_deltas lss item = no_delta.
Proof. intros Hnone. unfold service_deltas. rewrite Hnone. reflexivity. Qed.

Lemma checker_issue_unknown (lss : gmap string ServiceState)
    (item : string * ServiceInfo) :
  lss !! item.1 = None -> checker_issue lss item = false.
Proof. intros Hnone. unfold checker_issue. rewrite Hnone. reflexivity. Qed.

Lemma attack_dropped_unknown (cfg : Config) (st : MonitorState)
    (item : string * ServiceInfo) :
  last_service_states st !! item.1 = None -> attack_dropped cfg st item = false.
Proof.
  intros Hnone. unfold attack_dropped.
  rewrite (service_deltas_unknown _ item Hnone). reflexivity.
Qed.

Lemma defense_dropped_unknown (cfg : Config) (st : MonitorState)
    (item : string * ServiceInfo) :
  last_service_states st !! item.1 = None -> defense_dropped cfg st item = false.
Proof.
  intros Hnone. unfold defense_dropped.
  rewrite (service_deltas_unknown _ item Hnone). reflexivity.
Qed.

Lemma tick_alerts_unknown (cfg : Config) (st : MonitorState)
    (services : pydict ServiceInfo) :
  (forall name, name ∈ keys services -> last_service_states st !! name = None) ->
  tick_alerts cfg st services = [].
Proof.
  intros Hnone. unfold tick_alerts.
  rewrite (flagged_none (checker_issue _)), (flagged_none (attack_dropped _ _)),
    (flagged_none (defense_dropped _ _)); [reflexivity|..];
    intros item Hin; pose proof (Hnone _ (elem_keys _ _ Hin)) as Hitem.
  - apply defense_dropped_unknown, Hitem.
  - apply attack_dropped_unknown, Hitem.
  - apply checker_issue_unknown, Hitem.
Qed.

Lemma record_deltas_written (lss : gmap string ServiceState)
    (services : pydict ServiceInfo) (store : gmap string DeltaRecord) (name : string) :
  name ∈ keys services ->
  exists info,
    (name, info) ∈ services
    /\ record_deltas lss services store !! name = Some (service_deltas lss (name, info)).
Proof.
  unfold record_deltas. revert store.
  induction services as [|[k info] rest IH]; intros store Hin; [inversion Hin|].
  simpl. destruct (decide (name ∈ keys rest)) as [Hrest|Hrest].
  - destruct (IH (<[k:=service_deltas lss (k, info)]> store) Hrest) as (info' & Hin' & Hget).
    exists info'. split; [right; exact Hin' | exact Hget].
  - unfold keys in Hin. simpl in Hin. apply elem_of_cons in Hin as [->|Hin]; [|contradiction].
    exists info. split; [left|].
    fold (record_deltas lss rest (<[k:=service_deltas lss (k, info)]> store)).
    rewrite record_deltas_absent by exact Hrest. apply lookup_insert_eq.
Qed.




(** X3.  In a tick that is processed, a service without a stored state is
    put on none of the three lists, whatever its status, its scores and the
    delta store say, and where it is in the payload its delta record becomes
    the empty record. *)
Theorem X3_first_sighting (cfg : Config) (st : MonitorState)
    (services : pydict ServiceInfo) (name : string) :
  last_service_states st !! name = None ->
  exists acc,
    process_tick cfg st services = Ok acc
    /\ (name ∉ faulty_services acc)
    /\ (name ∉ attack_issue_services acc)
    /\ (name ∉ defense_issue_services acc)
    /\ (name ∈ keys services -> acc_prev_deltas acc !! name = Some no_delta).
Proof.
  intros Hnone. eexists. split; [apply process_tick_ok|].
  cbn [faulty_services attack_issue_services defense_issue_services acc_prev_deltas].
  split; [|split; [|split; [|]]].
  - intros Hin. apply elem_of_flagged in Hin as (info & _ & Hflag).
    rewrite checker_issue_unknown in Hflag by exact Hnone. discriminate.
  - intros Hin. apply elem_of_flagged in Hin as (info & _ & Hflag).
    rewrite attack_dropped_unknown in Hflag by exact Hnone. discriminate.
  - intros Hin. apply elem_of_flagged in Hin as (info & _ & Hflag).
    rewrite defense_dropped_unknown in Hflag by exact Hnone. discriminate.
  - intros Hkey.
    destruct (record_deltas_written (last_service_states st) services (prev_deltas st)
                name Hkey) as (info & _ & ->).
    f_equal. apply (service_deltas_unknown _ (name, info)), Hnone.
Qed.

Lemma X3_first_sighting_witness :
  exists acc,
    process_tick default_config sample_state
      [("db", sample_service "OFFLINE" 0 0); ("web", sample_service "OFFLINE" 1 1)]
    = Ok acc
    /\ ("db" ∉ faulty_services acc)
    /\ ("db" ∉ attack_issue_services acc)
    /\ ("db" ∉ defense_issue_services acc)
    /\ acc_prev_deltas acc !! "db" = Some no_delta.
Proof.
  destruct (X3_first_sighting default_config sample_state
              [("db", sample_service "OFFLINE" 0 0); ("web", sample_service "OFFLINE" 1 1)]
              "db")
    as (acc & Hacc & Hfaulty & Hattack & Hdefense & Hrecord).
  - apply lookup_singleton_ne. discriminate.
  - exists acc. repeat split; try assumption. apply Hrecord. left.
Defined.

(** X4.  A processed tick none of whose services has a stored state sends no
    message. *)
Theorem X4_unknown_services_send_nothing (cfg : Config) (st : MonitorState)
    (tick : string) (services : pydict ServiceInfo)
    (rest : pydict (pydict ServiceInfo)) :
  last_tick st <> Some tick ->
  (forall name, name ∈ keys services -> last_service_states st !! name = None) ->
  exists st',
    monitor_iteration cfg st (Some ((tick, services) :: rest)) = Ok (st', []).
Proof.
  intros Htick Hnone. destruct services as [|item items].
  - exists st. reflexivity.
  - eexists. rewrite iteration_new_tick by (exact Htick || discriminate).
    rewrite tick_alerts_unknown by exact Hnone. reflexivity.
Qed.

Lemma X4_unknown_services_send_nothing_witness :
  exists st',
    monitor_iteration default_config sample_state
      (Some [("2", [("db", sample_service "OFFLINE" 0 0)])]) = Ok (st', []).
Proof.
  apply (X4_unknown_services_send_nothing default_config sample_state "2"
           [("db", sample_service "OFFLINE" 0 0)] []).
  - simpl. discriminate.
  - intros name Hin. simpl in Hin. apply list_elem_of_singleton in Hin as ->.
    apply lookup_singleton_ne. discriminate.
Defined.

(** X5.  After a processed tick the delta record of a service of the payload
    that has a stored state holds, for attack and for defense, the current
    score minus the stored score. *)
Theorem X5_recorded_deltas (cfg : Config) (st : MonitorState) (tick : string)
    (services : pydict ServiceInfo) (rest : pydict (pydict ServiceInfo))
    (name : string) (info : ServiceInfo) (prev_state : ServiceState) :
  last_tick st <> Some tick ->
  NoDup (keys services) -> (name, info) ∈ services ->
  last_service_states st !! name = Some prev_state ->
  exists st' msgs,
    monitor_iteration cfg st (Some ((tick, services) :: rest)) = Ok (st', msgs)
    /\ prev_deltas st' !! name
       = Some {| attack_delta := Some (attack_score info - state_attack prev_state);
                 defense_delta := Some (defense_score info - state_defense prev_state) |}.
Proof.
  intros Htick Hnd Hin Hprev. eexists _, _.
  split; [apply iteration_new_tick; [intros ->; inversion Hin | exact Htick]|].
  cbn [prev_deltas after_new_tick].
  rewrite (record_deltas_present _ _ _ name info Hnd Hin).
  unfold service_deltas. cbn [fst snd]. rewrite Hprev. reflexivity.
Qed.

Lemma X5_recorded_deltas_witness :
  exists st' msgs,
    monitor_iteration default_config sample_state
      (Some [("2", [("web", sample_service "SUCCESS" 130 45)])]) = Ok (st', msgs)
    /\ prev_deltas st' !! "web"
       = Some {| attack_delta := Some 30; defense_delta := Some (-5) |}.
Proof.
  apply (X5_recorded_deltas default_config sample_state "2"
           [("web", sample_service "SUCCESS" 130 45)] [] "web"
           (sample_service "SUCCESS" 130 45)
           {| state_checker := Some "SUCCESS"; state_attack := 100; state_defense := 50 |}).
  - simpl. discriminate.
  - simpl. apply NoDup_singleton.
  - left.
  - apply lookup_singleton_eq.
Defined.

(** ** The delta store over a run *)

Lemma iteration_keeps_records (cfg : Config) (st : MonitorState)
    (team_data : option (pydict (pydict ServiceInfo))) (name : string) :
  is_Some (prev_deltas st !! name) ->
  exists st' msgs,
    monitor_iteration cfg st team_data = Ok (st', msgs)
    /\ is_Some (prev_deltas st' !! name).
Proof.
  intros Hsome. destruct (poll_tick team_data) as [tick|] eqn:Htick.
  - destruct (poll_tick_Some team_data tick Htick) as (services & rest & Hne & -> & _).
    destruct (decide (last_tick st = Some tick)) as [Hsame|Hnew].
    + eexists _, _. split; [apply iteration_repeated_poll; assumption|]. exact Hsome.
    + eexists _, _. split; [apply iteration_new_tick; assumption|].
      cbn [prev_deltas after_new_tick].
      destruct (decide (name ∈ keys services)) as [Hin|Hnot].
      * destruct (record_deltas_written (last_service_states st) services
                    (prev_deltas st) name Hin) as (info & _ & ->). eauto.
      * rewrite record_deltas_absent by exact Hnot. exact Hsome.
  - eexists _, _. split; [apply iteration_skipped, Htick | exact Hsome].
Qed.

(** X6.  A service that has a delta record keeps one for the rest of the
    run, whatever is polled: no turn of the loop removes a key from
    [prev_deltas]. *)
Theorem X6_delta_records_persist (cfg : Config)
    (fetched : list (option (pydict (pydict ServiceInfo)))) (st : MonitorState)
    (name : string) :
  is_Some (prev_deltas st !! name) ->
  exists st' msgs,
    monitor_services cfg st fetched = Ok (st', msgs)
    /\ is_Some (prev_deltas st' !! name).
Proof.
  revert st. induction fetched as [|team_data rest IH]; intros st Hsome.
  - exists st, []. auto.
  - destruct (iteration_keeps_records cfg st team_data name Hsome)
      as (st1 & msgs1 & Hrun1 & Hsome1).
    destruct (IH st1 Hsome1) as (st2 & msgs2 & Hrun2 & Hsome2).
    exists st2, (msgs1 ++ msgs2).
    rewrite monitor_services_cons, Hrun1, bind_ret. cbn [fst snd].
    rewrite Hrun2. auto.
Qed.

Lemma X6_delta_records_persist_witness :
  exists st' msgs,
    monitor_services default_config sample_state
      [sample_poll "2" [("db", sample_service "SUCCESS" 1 1)];
       sample_poll "3" [("db", sample_service "SUCCESS" 2 2)]] = Ok (st', msgs)
    /\ is_Some (prev_deltas st' !! "web").
Proof.
  apply (X6_delta_records_persist default_config
           [sample_poll "2" [("db", sample_service "SUCCESS" 1 1)];
            sample_poll "3" [("db", sample_service "SUCCESS" 2 2)]] sample_state "web").
  eexists. apply lookup_singleton_eq.
Defined.

(** ** The messages of a turn *)





(** ** The states stored by a repeated poll *)

Lemma dict_get_None {V : Type} (d : pydict V) (key : string) :
  key ∉ keys d -> dict_get d key = None.
Proof.
  intros Hnot. destruct (dict_get d key) as [v|] eqn:Hget; [|reflexivity].
  exfalso. apply Hnot, elem_of_keys. exists v. apply dict_get_Some_elem, Hget.
Qed.

(** X8.  After a repeated poll of a tick the stored states are those of the
    polled services and of no other service: a look-up gives the checker
    status of the service in the payload, its attack score and its defense
    score, each 0.0 where the payload has none, and nothing for a service
    that is not in the payload. *)
Theorem X8_repeated_poll_states (cfg : Config) (st : MonitorState) (tick : string)
    (services : pydict ServiceInfo) (rest : pydict (pydict ServiceInfo)) :
  services <> [] -> last_tick st = Some tick -> NoDup (keys services) ->
  exists st' msgs,
    monitor_iteration cfg st (Some ((tick, services) :: rest)) = Ok (st', msgs)
    /\ forall name,
         last_service_states st' !! name
         = match dict_get services name with
           | Some info =>
               Some {| state_checker := checker info;
                       state_attack :=
                         match components info with
                         | Some {| attack := Some score |} => score
                         | _ => 0
                         end;
                       state_defense :=
                         match components info with
                         | Some {| defense := Some score |} => score
                         | _ => 0
                         end |}
           | None => None
           end.
Proof.
  intros Hne Htick Hnd. eexists _, _.
  split; [apply iteration_repeated_poll; assumption|].
  intros name. cbn [last_service_states after_repeated_poll].
  destruct (decide (name ∈ keys services)) as [Hin|Hnot].
  - destruct (dict_get_is_Some services name Hin) as [info Hget]. rewrite Hget.
    rewrite (current_states_present services name info Hnd
               (dict_get_Some_elem services name info Hget)).
    destruct info as [status [[[atk|] [def|]]|]]; reflexivity.
  - rewrite (dict_get_None services name Hnot). apply current_states_absent, Hnot.
Qed.

Lemma X8_repeated_poll_states_witness :
  exists st' msgs,
    monitor_iteration default_config sample_state
      (Some [("1", [("db", {| checker := Some "MUMBLE";
                              components := Some {| attack := Some 3;
                                                    defense := None |} |})])])
    = Ok (st', msgs)
    /\ last_service_states st' !! "db"
       = Some {| state_checker := Some "MUMBLE"; state_attack := 3; state_defense := 0 |}
    /\ last_service_states st' !! "web" = None.
Proof.
  destruct (X8_repeated_poll_states default_config sample_state "1"
              [("db", {| checker := Some "MUMBLE";
                         components := Some {| attack := Some 3;
                                               defense := None |} |})] [])
    as (st' & msgs & Hrun & Hstates).
  - discriminate.
  - reflexivity.
  - simpl. apply NoDup_singleton.
  - exists st', msgs. split; [exact Hrun|].
    split; [exact (Hstates "db") | exact (Hstates "web")].
Defined.

(** X9.  Two repeated polls in a row leave the state that the second one
    alone would leave: the states that the next tick is compared with are
    those of the last poll before it. *)
Theorem X9_last_repeated_poll_wins (cfg : Config) (st : MonitorState) (tick : string)
    (services1 services2 : pydict ServiceInfo)
    (rest1 rest2 : pydict (pydict ServiceInfo)) :
  services1 <> [] -> services2 <> [] -> last_tick st = Some tick ->
  monitor_services cfg st
    [Some ((tick, services1) :: rest1); Some ((tick, services2) :: rest2)]
  = monitor_services cfg st [Some ((tick, services2) :: rest2)].
Proof.
  intros Hne1 Hne2 Htick. rewrite !monitor_services_cons.
  rewrite (iteration_repeated_poll cfg st tick services1 rest1 Hne1 Htick), bind_ret.
  cbn [fst snd]. rewrite monitor_services_cons.
  rewrite (iteration_repeated_poll cfg (after_repeated_poll st services1) tick
             services2 rest2 Hne2 Htick).
  rewrite (iteration_repeated_poll cfg st tick services2 rest2 Hne2 Htick).
  reflexivity.
Qed.

Lemma X9_last_repeated_poll_wins_witness :
  monitor_services default_config sample_state
    [Some [("1", [("web", sample_service "SUCCESS" 100 50)])];
     Some [("1", [("web", sample_service "MUMBLE" 101 50)])]]
  = monitor_services default_config sample_state
      [Some [("1", [("web", sample_service "MUMBLE" 101 50)])]].
Proof.
  apply (X9_last_repeated_poll_wins default_config sample_state "1"
           [("web", sample_service "SUCCESS" 100 50)]
           [("web", sample_service "MUMBLE" 101 50)] [] []).
  - discriminate.
  - discriminate.
  - reflexivity.
Defined.

(** ** The order of the lists *)

Lemma flagged_sublist (test : string * ServiceInfo -> bool)
    (services : pydict ServiceInfo) :
  sublist (flagged test services) (keys services).
Proof.
  induction services as [|item rest IH]; [constructor|].
  rewrite flagged_cons. unfold keys. rewrite fmap_cons.
  destruct (test item); simpl; [apply sublist_skip | apply sublist_cons]; exact IH.
Qed.

(** X10.  The three lists of a processed tick name services of the payload
    in the order of the payload, each one at most once. *)
Theorem X10_lists_follow_payload (cfg : Config) (st : MonitorState)
    (services : pydict ServiceInfo) :
  NoDup (keys services) ->
  exists acc,
    process_tick cfg st services = Ok acc
    /\ sublist (faulty_services acc) (keys services)
    /\ sublist (attack_issue_services acc) (keys services)
    /\ sublist (defense_issue_services acc) (keys services)
    /\ NoDup (faulty_services acc)
    /\ NoDup (attack_issue_services acc)
    /\ NoDup (defense_issue_services acc).
Proof.
  intros Hnd. eexists. split; [apply process_tick_ok|].
  cbn [faulty_services attack_issue_services defense_issue_services].
  repeat split; try apply flagged_sublist;
    (eapply sublist_NoDup; [exact Hnd | apply flagged_sublist]).
Qed.

Lemma X10_lists_follow_payload_witness :
  exists acc,
    process_tick default_config sample_state
      [("web", sample_service "OFFLINE" 105 50); ("db", sample_service "OFFLINE" 1 1)]
    = Ok acc
    /\ sublist (faulty_services acc) ["web"; "db"]
    /\ sublist (attack_issue_services acc) ["web"; "db"]
    /\ sublist (defense_issue_services acc) ["web"; "db"]
    /\ NoDup (faulty_services acc)
    /\ NoDup (attack_issue_services acc)
    /\ NoDup (defense_issue_services acc).
Proof.
  apply (X10_lists_follow_payload default_config sample_state
           [("web", sample_service "OFFLINE" 105 50);
            ("db", sample_service "OFFLINE" 1 1)]).
  simpl. apply NoDup_cons. split.
  - intros Hin. apply list_elem_of_singleton in Hin. discriminate.
  - apply NoDup_singleton.
Defined.

(** ** The line of a listed service *)

Lemma listed_line_sent (cfg : Config) (st : MonitorState)
    (services : pydict ServiceInfo) (line : string) :
  line ∈ drop_lines (last_service_states st) (prev_deltas st) services
           (flagged (attack_dropped cfg st) services)
           (flagged (defense_dropped cfg st) services) ->
  exists msg, msg ∈ tick_alerts cfg st services /\ contains msg line.
Proof.
  intros Hin. destruct (alert_message_contains _ _ Hin) as (msg & Hmsg & Hcontains).
  exists msg. split; [|exact Hcontains].
  unfold tick_alerts. apply elem_of_app. right. rewrite Hmsg. left.
Qed.

(** X11.  For a service that a processed tick puts on the attack (defense)
    issue list, the turn sends a message with the line of the service: the
    name between backquotes, [ has `ATTACK` issue] ([`DEFENSE`]), a newline,
    [-# ], the absolute value of [(cd - pd) / |pd| * 100] in the format
    [.2f], [% change (], and between the brackets the previous delta [pd] of
    the store, [->] and the current delta [cd] (current score minus stored
    score), both in the format [+.2f]. *)
Theorem X11_issue_line_values (cfg : Config) (st : MonitorState) (tick : string)
    (services : pydict ServiceInfo) (rest : pydict (pydict ServiceInfo))
    (name : string) (info : ServiceInfo) (prev_state : ServiceState) :
  last_tick st <> Some tick ->
  NoDup (keys services) -> (name, info) ∈ services ->
  last_service_states st !! name = Some prev_state ->
  exists acc st' msgs,
    process_tick cfg st services = Ok acc
    /\ monitor_iteration cfg st (Some ((tick, services) :: rest)) = Ok (st', msgs)
    /\ (forall pd,
          prev_deltas st !! name ≫= attack_delta = Some pd ->
          name ∈ attack_issue_services acc ->
          exists msg,
            msg ∈ msgs
            /\ contains msg
                 ("`" +:+ name +:+ "` has `ATTACK` issue" +:+ nl +:+ "-# "
                  +:+ format_2f false
                        (abs ((attack_score info - state_attack prev_state - pd)
                              / abs pd * 100))
                  +:+ "% change (" +:+ format_2f true pd +:+ "->"
                  +:+ format_2f true (attack_score info - state_attack prev_state)
                  +:+ ")"))
    /\ (forall pd,
          prev_deltas st !! name ≫= defense_delta = Some pd ->
          name ∈ defense_issue_services acc ->
          exists msg,
            msg ∈ msgs
            /\ contains msg
                 ("`" +:+ name +:+ "` has `DEFENSE` issue" +:+ nl +:+ "-# "
                  +:+ format_2f false
                        (abs ((defense_score info - state_defense prev_state - pd)
                              / abs pd * 100))
                  +:+ "% change (" +:+ format_2f true pd +:+ "->"
                  +:+ format_2f true (defense_score info - state_defense prev_state)
                  +:+ ")")).
Proof.
  intros Htick Hnd Hin Hprev.
  pose proof (dict_get_unique services name info Hnd Hin) as Hget.
  eexists _, _, _. split; [apply process_tick_ok|].
  split; [apply iteration_new_tick; [intros ->; inversion Hin | exact Htick]|].
  cbn [attack_issue_services defense_issue_services]. split.
  - intros pd Hpd Hflag.
    enough (exists msg,
               msg ∈ tick_alerts cfg st services
               /\ contains msg
                    (issue_text "ATTACK" name
                       ((attack_score info - state_attack prev_state - pd) / abs pd * 100)
                       pd (attack_score info - state_attack prev_state)))
      as Hline by exact Hline.
    apply listed_line_sent.
    apply elem_of_app. left. apply list_elem_of_join. eexists. split; [left|].
    apply list_elem_of_fmap. exists name. split; [|exact Hflag].
    symmetry. apply (issue_lines_eq _ _ _ _ _ _ _ name info prev_state pd Hget Hprev Hpd).
    apply (flagged_unique _ _ _ info Hnd Hin) in Hflag.
    apply dropped_Some in Hflag as (cd & pd' & _ & Hpd' & Hne).
    cbn [fst] in Hpd'. congruence.
  - intros pd Hpd Hflag.
    enough (exists msg,
               msg ∈ tick_alerts cfg st services
               /\ contains msg
                    (issue_text "DEFENSE" name
                       ((defense_score info - state_defense prev_state - pd) / abs pd * 100)
                       pd (defense_score info - state_defense prev_state)))
      as Hline by exact Hline.
    apply listed_line_sent.
    apply elem_of_app. right. apply list_elem_of_join. eexists. split; [left|].
    apply list_elem_of_fmap. exists name. split; [|exact Hflag].
    symmetry. apply (issue_lines_eq _ _ _ _ _ _ _ name info prev_state pd Hget Hprev Hpd).
    apply (flagged_unique _ _ _ info Hnd Hin) in Hflag.
    apply dropped_Some in Hflag as (cd & pd' & _ & Hpd' & Hne).
    cbn [fst] in Hpd'. congruence.
Qed.

Lemma X11_issue_line_values_witness :
  exists st' msgs msg,
    monitor_iteration default_config sample_state
      (Some [("2", [("web", sample_service "SUCCESS" 101 50)])]) = Ok (st', msgs)
    /\ msg ∈ msgs
    /\ contains msg
         ("`web` has `ATTACK` issue" +:+ nl +:+ "-# 95.00% change (+20.00->+1.00)").
Proof.
  destruct (X11_issue_line_values default_config sample_state "2"
              [("web", sample_service "SUCCESS" 101 50)] [] "web"
              (sample_service "SUCCESS" 101 50)
              {| state_checker := Some "SUCCESS";
                 state_attack := 100; state_defense := 50 |})
    as (acc & st' & msgs & Hacc & Hrun & Hattack & _).
  - simpl. discriminate.
  - simpl. apply NoDup_singleton.
  - left.
  - apply lookup_singleton_eq.
  - destruct (Hattack 20) as (msg & Hmsg & Hcontains).
    + unfold sample_state. cbn [prev_deltas]. rewrite lookup_singleton_eq. reflexivity.
    + rewrite process_tick_ok in Hacc. injection Hacc as <-.
      cbn [attack_issue_services].
      apply (flagged_unique _ _ "web" (sample_service "SUCCESS" 101 50)).
      * simpl. apply NoDup_singleton.
      * left.
      * vm_compute. reflexivity.
    + exists st', msgs, msg. auto.
Defined.

(** * The settings *)

(** X12.  Settings that are loaded hold what the environment says: the
    token and the host as they are set, the three numbers as [int] reads
    them, and each threshold as [float] reads its variable, or 0.5 and 10.0
    when the variable is not set. *)
Theorem X12_loaded_settings (py_int : string -> option Z)
    (py_float : string -> option float) (environ : gmap string string)
    (settings : Settings) :
  read_settings py_int py_float environ = Loaded settings ->
  environ !! "DISCORD_BOT_TOKEN" = Some (DISCORD_BOT_TOKEN settings)
  /\ environ !! "DISCORD_CHANNEL_ID" ≫= py_int = Some (DISCORD_CHANNEL_ID settings)
  /\ environ !! "API_HOST_PORT" = Some (API_HOST_PORT settings)
  /\ environ !! "TICK_LENGTH_SECONDS" ≫= py_int = Some (TICK_LENGTH_SECONDS settings)
  /\ environ !! "TEAM_ID" ≫= py_int = Some (TEAM_ID settings)
  /\ ATK_DEF_DROP_PERCENTAGE_THRESHOLD (alert_config settings)
     = default 0.5 (environ !! "ATK_DEF_DROP_PERCENTAGE_THRESHOLD" ≫= py_float)
  /\ ATK_DEF_MIN_SCORE_THRESHOLD (alert_config settings)
     = default 10.0 (environ !! "ATK_DEF_MIN_SCORE_THRESHOLD" ≫= py_float).
Proof.
  unfold read_settings, environ_int, environ_float, environ_getitem.
  destruct (environ !! "DISCORD_BOT_TOKEN") as [token|]; [|discriminate].
  destruct (environ !! "DISCORD_CHANNEL_ID") as [channel|]; [|discriminate].
  simpl. destruct (py_int channel) as [channel_id|]; [|discriminate].
  destruct (environ !! "API_HOST_PORT") as [host_port|]; [|discriminate].
  destruct (environ !! "TICK_LENGTH_SECONDS") as [tick_length|]; [|discriminate].
  simpl. destruct (py_int tick_length) as [seconds|]; [|discriminate].
  destruct (environ !! "TEAM_ID") as [team|]; [|discriminate].
  simpl. destruct (py_int team) as [team_id|]; [|discriminate].
  destruct (environ !! "ATK_DEF_DROP_PERCENTAGE_THRESHOLD") as [percentage|]; simpl.
  - destruct (py_float percentage) as [pct|]; [|discriminate].
    destruct (environ !! "ATK_DEF_MIN_SCORE_THRESHOLD") as [min_score|]; simpl.
    + destruct (py_float min_score) as [minimum|]; [|discriminate].
      intros [= <-]. repeat split.
    + intros [= <-]. repeat split.
  - destruct (environ !! "ATK_DEF_MIN_SCORE_THRESHOLD") as [min_score|]; simpl.
    + destruct (py_float min_score) as [minimum|]; [|discriminate].
      intros [= <-]. repeat split.
    + intros [= <-]. repeat split.
Qed.

Lemma X12_loaded_settings_witness :
  ATK_DEF_DROP_PERCENTAGE_THRESHOLD default_config
  = default 0.5 (sample_environ !! "ATK_DEF_DROP_PERCENTAGE_THRESHOLD" ≫= sample_float)
  /\ ATK_DEF_MIN_SCORE_THRESHOLD default_config
     = default 10.0 (sample_environ !! "ATK_DEF_MIN_SCORE_THRESHOLD" ≫= sample_float).
Proof.
  destruct (X12_loaded_settings sample_int sample_float sample_environ
              {| DISCORD_BOT_TOKEN := "secret";
                 DISCORD_CHANNEL_ID := 42;
                 API_HOST_PORT := "10.42.251.2:8080";
                 TICK_LENGTH_SECONDS := 60;
                 TEAM_ID := 7;
                 alert_config := default_config |})
    as (_ & _ & _ & _ & _ & Hpct & Hmin).
  - vm_compute. reflexivity.
  - split; [exact Hpct | exact Hmin].
Defined.

(** X13.  Start-up either goes on or ends the process with status 1.  It
    goes on exactly when the token and the host are set, the channel, the
    tick length and the team are set to texts that [int] reads, and each
    threshold variable is either not set or set to a text that [float]
    reads. *)
Theorem X13_startup_exit_code (py_int : string -> option Z)
    (py_float : string -> option float) (environ : gmap string string) :
  (startup_exit_code py_int py_float environ = None
   \/ startup_exit_code py_int py_float environ = Some 1%Z)
  /\ (startup_exit_code py_int py_float environ = None <->
      is_Some (environ !! "DISCORD_BOT_TOKEN")
      /\ is_Some (environ !! "DISCORD_CHANNEL_ID" ≫= py_int)
      /\ is_Some (environ !! "API_HOST_PORT")
      /\ is_Some (environ !! "TICK_LENGTH_SECONDS" ≫= py_int)
      /\ is_Some (environ !! "TEAM_ID" ≫= py_int)
      /\ (forall text, environ !! "ATK_DEF_DROP_PERCENTAGE_THRESHOLD" = Some text ->
            is_Some (py_float text))
      /\ (forall text, environ !! "ATK_DEF_MIN_SCORE_THRESHOLD" = Some text ->
            is_Some (py_float text))).
Proof.
  unfold startup_exit_code, read_settings, environ_int, environ_float, environ_getitem.
  destruct (environ !! "DISCORD_BOT_TOKEN") as [token|]; simpl;
    [|split; [auto|]; split; [discriminate | intros ([? [=]] & _)]].
  destruct (environ !! "DISCORD_CHANNEL_ID") as [channel|]; simpl;
    [|split; [auto|]; split; [discriminate | intros (_ & [? [=]] & _)]].
  destruct (py_int channel) as [channel_id|]; simpl;
    [|split; [auto|]; split; [discriminate | intros (_ & [? [=]] & _)]].
  destruct (environ !! "API_HOST_PORT") as [host_port|]; simpl;
    [|split; [auto|]; split; [discriminate | intros (_ & _ & [? [=]] & _)]].
  destruct (environ !! "TICK_LENGTH_SECONDS") as [tick_length|]; simpl;
    [|split; [auto|]; split; [discriminate | intros (_ & _ & _ & [? [=]] & _)]].
  destruct (py_int tick_length) as [seconds|]; simpl;
    [|split; [auto|]; split; [discriminate | intros (_ & _ & _ & [? [=]] & _)]].
  destruct (environ !! "TEAM_ID") as [team|]; simpl;
    [|split; [auto|]; split; [discriminate | intros (_ & _ & _ & _ & [? [=]] & _)]].
  destruct (py_int team) as [team_id|]; simpl;
    [|split; [auto|]; split; [discriminate | intros (_ & _ & _ & _ & [? [=]] & _)]].
  destruct (environ !! "ATK_DEF_DROP_PERCENTAGE_THRESHOLD") as [percentage|]; simpl.
  - destruct (py_float percentage) as [pct|] eqn:Hpct; simpl.
    + destruct (environ !! "ATK_DEF_MIN_SCORE_THRESHOLD") as [min_score|]; simpl.
      * destruct (py_float min_score) as [minimum|] eqn:Hmin; simpl.
        -- split; [auto|]. split; [intros _ | intros _; reflexivity].
           repeat (split; [eexists; reflexivity|]).
           split; intros text [= <-]; eexists; eassumption.
        -- split; [auto|]. split; [discriminate|].
           intros (_ & _ & _ & _ & _ & _ & Hbad).
           destruct (Hbad min_score eq_refl) as [? Hsome]. congruence.
      * split; [auto|]. split; [intros _ | intros _; reflexivity].
        repeat (split; [eexists; reflexivity|]).
        split; [intros text [= <-]; eexists; eassumption | discriminate].
    + split; [auto|]. split; [discriminate|].
      intros (_ & _ & _ & _ & _ & Hbad & _).
      destruct (Hbad percentage eq_refl) as [? Hsome]. congruence.
  - destruct (environ !! "ATK_DEF_MIN_SCORE_THRESHOLD") as [min_score|]; simpl.
    + destruct (py_float min_score) as [minimum|] eqn:Hmin; simpl.
      * split; [auto|]. split; [intros _ | intros _; reflexivity].
        repeat (split; [eexists; reflexivity|]).
        split; [discriminate | intros text [= <-]; eexists; eassumption].
      * split; [auto|]. split; [discriminate|].
        intros (_ & _ & _ & _ & _ & _ & Hbad).
        destruct (Hbad min_score eq_refl) as [? Hsome]. congruence.
    + split; [auto|]. split; [intros _ | intros _; reflexivity].
      repeat (split; [eexists; reflexivity|]). split; discriminate.
Qed.

(** * Further properties of a run *)

(** X14.  After a run [last_tick] is the tick of the last poll of the run
    that reached the comparison, and what it was before when no poll of the
    run did. *)
Theorem X14_last_tick_of_a_run (cfg : Config)
    (fetched : list (option (pydict (pydict ServiceInfo)))) (st : MonitorState) :
  exists st' msgs,
    monitor_services cfg st fetched = Ok (st', msgs)
    /\ last_tick st'
       = match last (omap poll_tick fetched) with
         | Some tick => Some tick
         | None => last_tick st
         end.
Proof.
  revert st. induction fetched as [|team_data rest IH]; intros st.
  - exists st, []. auto.
  - rewrite monitor_services_cons. cbn [omap list_omap].
    destruct (poll_tick team_data) as [tick|] eqn:Htick.
    + destruct (poll_tick_Some team_data tick Htick) as (services & rest' & Hne & -> & _).
      assert (exists st1 msgs1,
                 monitor_iteration cfg st (Some ((tick, services) :: rest'))
                 = Ok (st1, msgs1) /\ last_tick st1 = Some tick)
        as (st1 & msgs1 & Hrun1 & Hlast1).
      { destruct (decide (last_tick st = Some tick)) as [Hsame|Hnew].
        - eexists _, _. split; [apply iteration_repeated_poll; assumption|]. exact Hsame.
        - eexists _, _. split; [apply iteration_new_tick; assumption|]. reflexivity. }
      destruct (IH st1) as (st2 & msgs2 & Hrun2 & Hlast2).
      exists st2, (msgs1 ++ msgs2). rewrite Hrun1, bind_ret. cbn [fst snd].
      rewrite Hrun2. split; [reflexivity|].
      rewrite Hlast2, Hlast1, last_cons.
      fold (omap poll_tick rest). destruct (last (omap poll_tick rest)); reflexivity.
    + destruct (IH st) as (st2 & msgs2 & Hrun2 & Hlast2).
      exists st2, msgs2. rewrite (iteration_skipped cfg st team_data Htick), bind_ret.
      cbn [fst snd]. rewrite Hrun2. split; [reflexivity | exact Hlast2].
Qed.

(** ** What the alerts of a tick depend on *)

Lemma flagged_ext (test1 test2 : string * ServiceInfo -> bool)
    (services : pydict ServiceInfo) :
  (forall item, item ∈ services -> test1 item = test2 item) ->
  flagged test1 services = flagged test2 services.
Proof.
  induction services as [|item rest IH]; intros Hsame; [reflexivity|].
  rewrite !flagged_cons, (Hsame item) by left. f_equal. apply IH.
  intros item' Hin. apply Hsame. right. exact Hin.
Qed.

Lemma join_fmap_ext {A : Type} (f g : A -> list string) (items : list A) :
  (forall item, item ∈ items -> f item = g item) ->
  mjoin (f <$> items) = mjoin (g <$> items).
Proof.
  induction items as [|item rest IH]; intros Hsame; [reflexivity|].
  rewrite !fmap_cons. cbn [mjoin list_join]. rewrite (Hsame item) by left.
  f_equal. apply IH. intros item' Hin. apply Hsame. right. exact Hin.
Qed.

Lemma issue_lines_ext (label : string) (delta_of : DeltaRecord -> option float)
    (state_score : ServiceState -> float) (score : ServiceInfo -> float)
    (lss1 lss2 : gmap string ServiceState) (snap1 snap2 : gmap string DeltaRecord)
    (services : pydict ServiceInfo) (name : string) :
  lss1 !! name = lss2 !! name -> snap1 !! name = snap2 !! name ->
  issue_lines label delta_of state_score score lss1 snap1 services name
  = issue_lines label delta_of state_score score lss2 snap2 services name.
Proof.
  intros Hlss Hsnap. unfold issue_lines, issue_line. rewrite Hlss, Hsnap. reflexivity.
Qed.

Lemma tick_alerts_ext (cfg : Config) (st1 st2 : MonitorState)
    (services : pydict ServiceInfo) :
  (forall name, name ∈ keys services ->
     last_service_states st1 !! name = last_service_states st2 !! name
     /\ prev_deltas st1 !! name = prev_deltas st2 !! name) ->
  tick_alerts cfg st1 services = tick_alerts cfg st2 services.
Proof.
  intros Hsame.
  assert (Hfaulty : flagged (checker_issue (last_service_states st1)) services
                    = flagged (checker_issue (last_service_states st2)) services).
  { apply flagged_ext. intros item Hin.
    destruct (Hsame _ (elem_keys _ _ Hin)) as [Hlss _].
    unfold checker_issue. rewrite Hlss. reflexivity. }
  assert (Hattack : flagged (attack_dropped cfg st1) services
                    = flagged (attack_dropped cfg st2) services).
  { apply flagged_ext. intros item Hin.
    destruct (Hsame _ (elem_keys _ _ Hin)) as [Hlss Hsnap].
    unfold attack_dropped, service_deltas. rewrite Hlss, Hsnap. reflexivity. }
  assert (Hdefense : flagged (defense_dropped cfg st1) services
                     = flagged (defense_dropped cfg st2) services).
  { apply flagged_ext. intros item Hin.
    destruct (Hsame _ (elem_keys _ _ Hin)) as [Hlss Hsnap].
    unfold defense_dropped, service_deltas. rewrite Hlss, Hsnap. reflexivity. }
  unfold tick_alerts, drop_lines. rewrite Hfaulty, Hattack, Hdefense.
  f_equal. f_equal. f_equal.
  - apply join_fmap_ext. intros name Hin.
    destruct (Hsame name (flagged_keys _ _ _ Hin)) as [Hlss Hsnap].
    apply issue_lines_ext; assumption.
  - apply join_fmap_ext. intros name Hin.
    destruct (Hsame name (flagged_keys _ _ _ Hin)) as [Hlss Hsnap].
    apply issue_lines_ext; assumption.
Qed.

(** X15.  The messages of a processed tick depend on the stored states and
    the stored deltas of the services of the payload only: two states that
    agree on them send the same messages, whatever they store for other
    services. *)
Theorem X15_alerts_depend_on_payload_services (cfg : Config)
    (st1 st2 : MonitorState) (tick : string) (services : pydict ServiceInfo)
    (rest : pydict (pydict ServiceInfo)) :
  last_tick st1 <> Some tick -> last_tick st2 <> Some tick ->
  (forall name, name ∈ keys services ->
     last_service_states st1 !! name = last_service_states st2 !! name
     /\ prev_deltas st1 !! name = prev_deltas st2 !! name) ->
  exists st1' st2' msgs,
    monitor_iteration cfg st1 (Some ((tick, services) :: rest)) = Ok (st1', msgs)
    /\ monitor_iteration cfg st2 (Some ((tick, services) :: rest)) = Ok (st2', msgs).
Proof.
  intros Htick1 Htick2 Hsame. destruct services as [|item items].
  - exists st1, st2, []. split; reflexivity.
  - eexists _, _, _.
    rewrite !iteration_new_tick by (assumption || discriminate).
    rewrite (tick_alerts_ext cfg st1 st2 _ Hsame). split; reflexivity.
Qed.

Lemma X15_alerts_depend_on_payload_services_witness :
  exists st1' st2' msgs,
    monitor_iteration default_config sample_state
      (Some [("2", [("web", sample_service "OFFLINE" 101 50)])]) = Ok (st1', msgs)
    /\ monitor_iteration default_config
         {| last_service_states :=
              <["db" := service_state (sample_service "SUCCESS" 1 1)]>
                (last_service_states sample_state);
            prev_deltas := <["db" := no_delta]> (prev_deltas sample_state);
            last_tick := None |}
         (Some [("2", [("web", sample_service "OFFLINE" 101 50)])]) = Ok (st2', msgs).
Proof.
  apply (X15_alerts_depend_on_payload_services default_config sample_state
           {| last_service_states :=
                <["db" := service_state (sample_service "SUCCESS" 1 1)]>
                  (last_service_states sample_state);
              prev_deltas := <["db" := no_delta]> (prev_deltas sample_state);
              last_tick := None |}
           "2" [("web", sample_service "OFFLINE" 101 50)] []).
  - simpl. discriminate.
  - simpl. discriminate.
  - intros name Hin. simpl in Hin. apply list_elem_of_singleton in Hin as ->.
    cbn [last_service_states prev_deltas].
    rewrite !lookup_insert_ne by discriminate. split; reflexivity.
Defined.

(** * Deltas that are not numbers *)

Lemma ltb_nan (x y : float) :
  Prim2SF x = S754_nan \/ Prim2SF y = S754_nan -> (x <? y) = false.
Proof.
  intros Hnan. rewrite FloatAxioms.ltb_spec. unfold SFltb.
  destruct Hnan as [-> | ->]; [reflexivity|].
  destruct (Prim2SF x); reflexivity.
Qed.

(** X16.  The drop test is false when the current or the previous delta is
    not a number (a nan, as the difference of two infinite scores is): such
    a delta puts no service on an issue list, and the test does not raise. *)
Theorem X16_nan_delta_never_drops (cfg : Config) (cd pd : float) :
  Prim2SF cd = S754_nan \/ Prim2SF pd = S754_nan ->
  delta_dropped cfg (Some cd) (Some pd) = Ok false.
Proof.
  intros Hnan. unfold delta_dropped.
  rewrite (ltb_nan cd pd Hnan). destruct (py_ne0 pd); reflexivity.
Qed.

Lemma X16_nan_delta_never_drops_witness :
  delta_dropped default_config (Some (infinity - infinity)) (Some 20) = Ok false.
Proof.
  apply (X16_nan_delta_never_drops default_config (infinity - infinity) 20).
  left. vm_compute. reflexivity.
Defined.
